(** * transfer.py: transfer-learning fine-tuning script

    A shallow embedding of [src/transfer.py].  The script is a single
    top-level Python module; its statements are embedded in the order of
    the source, with the line numbers of the source in the comments.

    Conventions of the embedding.
    - Python floats and tensor entries are rationals ([Q]); the rounding
      of the tensor arithmetic that the script itself spells out is not
      modelled, and [torch.linspace], whose values are single-precision
      roundings, is left to the collaborators.
    - A Python exception is a value of [exn]; a statement that can raise
      returns a [result].
    - The module-level variables that the training code mutates live in a
      [session] record, the file system and standard output in a [world].
    - The collaborators that the script imports ([utils], [datasets],
      [models], the [torch] runtime) are the fields of the class
      [Externals]; every theorem holds for all their implementations. *)

From Stdlib Require Import QArith Lqa Ascii String.
From stdpp Require Import gmap strings list fin_maps.

Local Open Scope string_scope.

(** ** Exceptions and results *)

Inductive exn :=
| NameError
| AttributeError
| TypeError
| IndexError
| RuntimeError
| FileNotFoundError
| PicklingError.

Inductive result (A : Type) :=
| Ok (a : A)
| Raise (e : exn).
Arguments Ok {A} a.
Arguments Raise {A} e.

Definition rbind {A B} (r : result A) (k : A -> result B) : result B :=
  match r with Ok a => k a | Raise e => Raise e end.

(** A list comprehension whose body can raise: elements are evaluated from
    left to right and the first exception ends the evaluation. *)
Fixpoint rmap {A B} (f : A -> result B) (l : list A) : result (list B) :=
  match l with
  | [] => Ok []
  | x :: l' => rbind (f x) (fun y => rbind (rmap f l') (fun ys => Ok (y :: ys)))
  end.

(** ** Strings: [str.replace] and [str.split(sep)[0]] *)

(** [s.replace(old, new)] for a non-empty [old]: every non-overlapping
    occurrence, scanning from the left.  [skip] counts the characters of
    an occurrence that was just replaced and are still to be dropped. *)
Fixpoint replace_from (skip : nat) (old new s : string) : string :=
  match s with
  | EmptyString => EmptyString
  | String c s' =>
      match skip with
      | S k => replace_from k old new s'
      | O => if String.prefix old s
             then new +:+ replace_from (String.length old - 1) old new s'
             else String c (replace_from 0 old new s')
      end
  end.

Definition replace (old new s : string) : string := replace_from 0 old new s.

(** [s.split(sep)[0]] for a one-character [sep]: the text before the first
    separator, the whole string when there is none. *)
Fixpoint before_first (sep : Ascii.ascii) (s : string) : string :=
  match s with
  | EmptyString => EmptyString
  | String c s' => if Ascii.eqb c sep then EmptyString
                   else String c (before_first sep s')
  end.

(** Whether [old] starts at one of the positions of [s1] in the string
    [s1 +:+ rest]. *)
Fixpoint occurs_within (old s1 rest : string) : bool :=
  match s1 with
  | EmptyString => false
  | String c s1' => String.prefix old (s1 +:+ rest) || occurs_within old s1' rest
  end.

(** ** Tensors *)

(** An activation of shape N x C x H x W, as nested lists. *)
Definition tensor4 := list (list (list (list Q))).

Definition Qsum (l : list Q) : Q := foldr Qplus 0%Q l.

Definition shape (x : tensor4) : list nat :=
  let smp := hd [] x in
  let pl := hd [] smp in
  [length x; length smp; length pl; length (hd [] pl)].

(** Sum of channel [c] over the batch and both spatial dimensions. *)
Definition channel_sum (x : tensor4) (c : nat) : Q :=
  Qsum (map (fun smp => Qsum (map Qsum (nth c smp []))) x).

(** [x.mean(dim=[0, 2, 3])]: one mean per channel. *)
Definition mean023 (x : tensor4) : list Q :=
  match shape x with
  | [n; c; h; w] =>
      map (fun k => (channel_sum x k / inject_Z (Z.of_nat (n * h * w)))%Q) (seq 0 c)
  | _ => []
  end.

(** Elementwise [a - b] of two one-dimensional tensors, with torch's
    broadcasting of a dimension of size one. *)
Definition tensor_sub (a b : list Q) : result (list Q) :=
  if decide (length a = length b) then Ok (zip_with Qminus a b)
  else match a, b with
       | [u], _ => Ok (map (fun v => (u - v)%Q) b)
       | _, [v] => Ok (map (fun u => (u - v)%Q) a)
       | _, _ => Raise RuntimeError
       end.

(** [(t ** 2).sum()] *)
Definition sum_squares (t : list Q) : Q := Qsum (map (fun v => (v * v)%Q) t).

Definition Qltb (a b : Q) : bool := negb (Qle_bool b a).

(** ** Python objects that the loss computation handles dynamically *)

#[local] Unset Elimination Schemes.
Inductive pyobj :=
| PyNone
| PyScalar (q : Q)            (* a zero-dimensional tensor *)
| PyTensor (t : tensor4)
| PyTuple (xs : list pyobj)
| PyList (xs : list pyobj).
#[local] Set Elimination Schemes.

(** [o.mean(dim=[0, 2, 3])] *)
Definition py_mean023 (o : pyobj) : result (list Q) :=
  match o with
  | PyTensor t => Ok (mean023 t)
  | PyScalar _ => Raise IndexError
  | PyNone | PyTuple _ | PyList _ => Raise AttributeError
  end.

(** [o.item()] *)
Definition py_item (o : pyobj) : result Q :=
  match o with
  | PyScalar q => Ok q
  | PyTensor _ => Raise RuntimeError
  | PyNone | PyTuple _ | PyList _ => Raise AttributeError
  end.

(** [t + o] for a zero-dimensional tensor [t]: a tensor operand is added,
    any other operand is refused by both [Tensor.__add__] and the
    reflected operation. *)
Definition py_add_scalar (t : Q) (o : pyobj) : result pyobj :=
  match o with
  | PyScalar q => Ok (PyScalar (t + q)%Q)
  | PyTensor x => Ok (PyTensor (map (map (map (map (Qplus t)))) x))
  | PyNone | PyTuple _ | PyList _ => Raise TypeError
  end.

(** [o.backward()] *)
Definition py_backward (o : pyobj) : result unit :=
  match o with
  | PyScalar _ => Ok tt
  | PyTensor _ => Raise RuntimeError
  | PyNone | PyTuple _ | PyList _ => Raise AttributeError
  end.

(** ** Command line (lines 16-39) *)

Record args := mk_args {
  dataset_to : string;
  network : string;
  model_from : string;
  ckpt : string;
  cuda : bool;
  num_epochs : Z;
  lr : Q;
  batch_size : Z;
  unsupervised : bool;
  distortion_test : bool;
  resume_training : bool;
  reset : bool;
  save_best : bool
}.

(** The values that the parser accepts for [--network] (line 19). *)
Definition network_choices : list string := ["Unet"; "UnetPlusPlus"].
Definition dataset_choices : list string := ["PBCBarcelona"; "CIFAR10"].

(** The parser's defaults (lines 18-33). *)
Definition default_args : args :=
  {| dataset_to := "CIFAR10"; network := "Unet"; model_from := "models/model.ckpt";
     ckpt := "auto"; cuda := false; num_epochs := 3; lr := (1 # 100)%Q;
     batch_size := 64; unsupervised := false; distortion_test := false;
     resume_training := false; reset := false; save_best := false |}.

Definition with_ckpt (p : string) (a : args) : args :=
  mk_args (dataset_to a) (network a) (model_from a) p (cuda a) (num_epochs a)
          (lr a) (batch_size a) (unsupervised a) (distortion_test a)
          (resume_training a) (reset a) (save_best a).

Definition with_cuda (b : bool) (a : args) : args :=
  mk_args (dataset_to a) (network a) (model_from a) (ckpt a) b (num_epochs a)
          (lr a) (batch_size a) (unsupervised a) (distortion_test a)
          (resume_training a) (reset a) (save_best a).

(** Line 36: [device = 'cuda'  # if args.cuda else 'cpu']. *)
Definition device (a : args) : string := "cuda".

(** Lines 38-39. *)
Definition resolve_ckpt (a : args) : args :=
  if String.eqb (ckpt a) "auto"
  then with_ckpt (replace ".ckpt" ("_transfer_" +:+ dataset_to a +:+ ".ckpt") (model_from a)) a
  else a.

(** Line 54: [plot_loc = args.ckpt.split('.')[0] + '.png']. *)
Definition plot_loc (a : args) : string := before_first "."%char (ckpt a) +:+ ".png".

(** ** Collaborators *)

(** A normalisation layer, as far as the script reads it. *)
Record BatchNorm := { running_mean : list Q }.

Definition Batch : Type := tensor4 * list nat.

(** A data loader: its length and, for the [p]-th pass over it, its
    [i]-th batch (a shuffling loader yields different passes). *)
Record Loader := { loader_len : nat; loader_batch : nat -> nat -> Batch }.

Definition loader_pass (l : Loader) (p : nat) : list Batch :=
  map (loader_batch l p) (seq 0 (loader_len l)).

Class Externals := {
  Model : Type;
  Optimizer : Type;
  Dataset : Type;
  Split : Type;
  Distortion : Type;
  (* datasets.get_dataset and the attributes of its result *)
  get_dataset : string -> Dataset;
  train_set : Dataset -> Split;
  valid_set : Dataset -> Split;
  test_set : Dataset -> Split;
  in_channels : Dataset -> nat;
  num_classes : Dataset -> nat;
  (* torch.utils.data.DataLoader(split, batch_size, shuffle); torch builds
     a shuffling loader only over a data set that is not empty, so the
     training loader has at least one batch *)
  DataLoader : Split -> Z -> bool -> Loader;
  (* models *)
  resnet18 : nat -> nat -> Model;
  resnet34 : nat -> nat -> Model;
  DistortionModelConv : list nat -> Q -> Distortion;
  distortion_call : Distortion -> tensor4 -> tensor4;
  (* utils *)
  get_bn_layers : Model -> list BatchNorm;
  test_accuracy : Model -> Loader -> string -> Q;
  (* what the registered hooks leave in the capture buffer when
     utils.test_accuracy runs the model *)
  test_accuracy_taps : Model -> Loader -> list pyobj -> list pyobj;
  (* torch.nn.Module *)
  model_train : Model -> Model;
  model_eval : Model -> Model;
  (* one forward pass: the module afterwards (running statistics are
     updated in place) and the logits *)
  model_call : Model -> tensor4 -> Model * list (list Q);
  (* the normalisation layers that run in a forward pass, in order: index
     in get_bn_layers and the tensor the layer is called on *)
  hook_calls : Model -> tensor4 -> list (nat * tensor4);
  (* nn.CrossEntropyLoss, torch.optim.Adam, optimizer.step after backward *)
  cross_entropy : list (list Q) -> list nat -> Q;
  Adam : Model -> Q -> Optimizer;
  optimizer_step : Optimizer -> Model -> Batch -> pyobj -> Optimizer * Model;
  (* torch.linspace(start, end, steps).tolist(): the single-precision
     values that torch computes, each of them a rational *)
  linspace : Q -> Q -> nat -> list Q
}.

Section Script.
Context {E : Externals}.

(** Lines 44-45. *)
Definition train_loader (a : args) : Loader :=
  DataLoader (train_set (get_dataset (dataset_to a))) (batch_size a) true.
Definition valid_loader (a : args) : Loader :=
  DataLoader (valid_set (get_dataset (dataset_to a))) (batch_size a) false.

(** ** Checkpoints, the world and the session *)

(** The bundle written by [torch.save] at lines 163-164. *)
Record checkpoint := {
  ck_model : Model;
  ck_optimizer : Optimizer;
  ck_epoch : nat;
  ck_acc : Q;
  ck_logs : gmap string (list Q)
}.

Inductive message :=
| MsgArgs (a : args)                                   (* line 41 *)
| MsgLoading (path : string) (epochs : nat) (acc : Q)  (* line 65 *)
| MsgTraining                                          (* line 114 *)
| MsgProgress (epoch last pos : nat) (metrics : list (string * Q)) (* line 149 *)
| MsgSaving (path : string)                            (* line 162 *)
| MsgLoadingBest (path : string) (epochs : pyobj) (acc : Q). (* line 168 *)

Inductive event :=
| Print (m : message)
| Load (path map_location : string)
| ToDevice (what dev : string)
| Forward
| OptimizerStep
| Plot (logs : gmap string (list Q)) (steps_per_epoch : option nat)
       (smoothing : nat) (save_loc : option string)
| Save (path : string) (c : checkpoint).

(** The checkpoint files on disk, by path, and what the run did so far
    (oldest event first). *)
Record world := { disk : gmap string checkpoint; out : list event }.

(** The module-level variables of the training code. *)
Record session := mk_session {
  model : Model;
  optimizer : Optimizer;
  init_epoch : nat;
  logs : gmap string (list Q);
  best_acc : Q;
  valid_acc : Q;
  layer_activations : list pyobj;
  distortion : option Distortion
}.

Definition with_model m s :=
  mk_session m (optimizer s) (init_epoch s) (logs s) (best_acc s) (valid_acc s)
             (layer_activations s) (distortion s).
Definition with_optimizer o s :=
  mk_session (model s) o (init_epoch s) (logs s) (best_acc s) (valid_acc s)
             (layer_activations s) (distortion s).
Definition with_logs l s :=
  mk_session (model s) (optimizer s) (init_epoch s) l (best_acc s) (valid_acc s)
             (layer_activations s) (distortion s).
Definition with_best_acc q s :=
  mk_session (model s) (optimizer s) (init_epoch s) (logs s) q (valid_acc s)
             (layer_activations s) (distortion s).
Definition with_valid_acc q s :=
  mk_session (model s) (optimizer s) (init_epoch s) (logs s) (best_acc s) q
             (layer_activations s) (distortion s).
Definition with_layer_activations b s :=
  mk_session (model s) (optimizer s) (init_epoch s) (logs s) (best_acc s) (valid_acc s)
             b (distortion s).
Definition with_distortion d s :=
  mk_session (model s) (optimizer s) (init_epoch s) (logs s) (best_acc s) (valid_acc s)
             (layer_activations s) d.

(** ** The monad of the training code: state and exceptions *)

Definition M (A : Type) : Type := session * world -> result A * (session * world).

#[global] Instance M_ret : MRet M := fun A a st => (Ok a, st).
#[global] Instance M_bind : MBind M := fun A B k c st =>
  match c st with
  | (Ok a, st') => k a st'
  | (Raise e, st') => (Raise e, st')
  end.

Definition get : M session := fun st => (Ok st.1, st).
Definition modify (f : session -> session) : M unit := fun st => (Ok tt, (f st.1, st.2)).
Definition raise {A} (e : exn) : M A := fun st => (Raise e, st).
Definition lift {A} (r : result A) : M A := fun st => (r, st).
Definition emit_w (e : event) (w : world) : world :=
  {| disk := disk w; out := out w ++ [e] |}.
Definition emit (e : event) : M unit := fun st => (Ok tt, (st.1, emit_w e st.2)).
Definition read_file (path : string) : M (option checkpoint) :=
  fun st => (Ok (disk st.2 !! path), st).

(** [torch.save(bundle, path)] for the bundle of lines 163-164.  The
    bundle is pickled with the module in it, and the module with the
    forward hooks that line 100 registered on its normalisation layers:
    functions local to [layer_hook_wrapper], which the pickler refuses
    ([pickle.PicklingError]; the pickler of older interpreters reports the
    refusal as an [AttributeError]).  The file is written only for a module
    without such a layer; a refused bundle leaves the file as it was. *)
Definition torch_save (path : string) (c : checkpoint) : M unit :=
  fun st =>
    match get_bn_layers (ck_model c) with
    | [] => (Ok tt, (st.1, {| disk := <[path := c]> (disk st.2); out := out st.2 |}))
    | _ :: _ => (Raise PicklingError, st)
    end.

(** A [for] loop over a list. *)
Fixpoint for_each {A} (l : list A) (body : A -> M unit) : M unit :=
  match l with
  | [] => mret tt
  | x :: l' => body x ;; for_each l' body
  end.

(** ** The activation tap (lines 88-100) *)

(** Lines 93-96: the hook returned by [layer_hook_wrapper(idx)], called
    as [hook(module, inputs, outputs)]: [layer_activations[idx] = inputs].
    Assigning to an index outside a Python list raises [IndexError]. *)
Definition layer_hook_wrapper (idx : nat) (inputs : pyobj) : M unit :=
  s ← get;
  if decide (idx < length (layer_activations s))
  then modify (with_layer_activations (<[idx := inputs]> (layer_activations s)))
  else raise IndexError.

(** Line 128, [model(x)].  [torch.nn.Module.__call__] runs the forward
    computation and calls every registered forward hook as
    [hook(module, args, output)], where [args] is the tuple of the
    positional arguments of the layer's call: for a normalisation layer
    called on the tensor [t], the one-element tuple [(t,)]. *)
Definition call_model (x : tensor4) : M (list (list Q)) :=
  s ← get;
  emit Forward;;
  for_each (hook_calls (model s) x)
           (fun c => layer_hook_wrapper c.1 (PyTuple [PyTensor c.2]));;
  modify (with_model (model_call (model s) x).1);;
  mret (model_call (model s) x).2.

(** ** The regularisation term (lines 103-107) *)

(** [((bn.running_mean - input.mean(dim=[0, 2, 3])) ** 2).sum()] *)
Definition layer_penalty (bn : BatchNorm) (input : pyobj) : result pyobj :=
  rbind (py_mean023 input) (fun mu =>
  rbind (tensor_sub (running_mean bn) mu) (fun d =>
  Ok (PyScalar (sum_squares d)))).

(** [get_bn_loss()]: the list built by the comprehension over
    [zip(bn_layers, layer_activations)].  [bn_layers] holds references to
    the layers of [model], so the statistics are those of the current
    module. *)
Definition get_bn_loss : M pyobj :=
  s ← get;
  lift (rbind (rmap (fun p => layer_penalty p.1 p.2)
                    (zip (get_bn_layers (model s)) (layer_activations s)))
              (fun l => Ok (PyList l))).

(** ** One training step (lines 121-150) *)

(** Line 131: [(logits.argmax(dim=1) == y).float().mean().item()]. *)
Fixpoint argmax_from (best : Q) (besti i : nat) (row : list Q) : nat :=
  match row with
  | [] => besti
  | v :: row' => if Qltb best v then argmax_from v i (S i) row'
                 else argmax_from best besti (S i) row'
  end.

Definition argmax (row : list Q) : nat :=
  match row with [] => 0 | v :: row' => argmax_from v 0 1 row' end.

Definition step_accuracy (logits : list (list Q)) (y : list nat) : Q :=
  (Qsum (zip_with (fun row lbl => if Nat.eqb (argmax row) lbl then 1 else 0) logits y)
   / inject_Z (Z.of_nat (length y)))%Q.

(** Lines 141-142: [logs[m].append(v)] on a [defaultdict(list)]; line 156
    is the same with [extend]. *)
Definition log_extend (m : string) (vs : list Q) (l : gmap string (list Q))
  : gmap string (list Q) :=
  <[m := (default [] (l !! m) ++ vs)%list]> l.

Definition train_step (a : args) (epoch step : nat) (b : Batch) : M unit :=
  (* 121 *)
  emit (ToDevice "x" (device a));;
  emit (ToDevice "y" (device a));;
  (* 123-126 *)
  x ← (if distortion_test a then
         s ← get;
         d ← match distortion s with
             | None =>
                 modify (with_distortion (Some (DistortionModelConv (shape b.1) (1 # 10))));;
                 mret (DistortionModelConv (shape b.1) (1 # 10))
             | Some d => mret d
             end;
         mret (distortion_call d b.1)
       else mret b.1);
  (* 128-131 *)
  logits ← call_model x;
  loss_bn ← get_bn_loss;
  let acc := step_accuracy logits b.2 in
  (* 133-139 *)
  lm ← (if unsupervised a then
          v ← lift (py_item loss_bn);
          mret (loss_bn, [("acc", acc); ("loss_bn", v)])
        else
          let loss_crit := cross_entropy logits b.2 in
          loss ← lift (py_add_scalar loss_crit loss_bn);
          v ← lift (py_item loss_bn);
          mret (loss, [("acc", acc); ("loss_bn", v); ("loss_crit", loss_crit)]));
  (* 141-142 *)
  for_each lm.2 (fun mv => modify (fun s => with_logs (log_extend mv.1 [mv.2] (logs s)) s));;
  (* 144-146 *)
  lift (py_backward lm.1);;
  s ← get;
  modify (with_optimizer (optimizer_step (optimizer s) (model s) (x, b.2) lm.1).1);;
  modify (with_model (optimizer_step (optimizer s) (model s) (x, b.2) lm.1).2);;
  emit OptimizerStep;;
  (* 148-150 *)
  let n := loader_len (train_loader a) in
  if Nat.eqb ((step `mod` n) `mod` 50) 0
  then emit (Print (MsgProgress epoch (init_epoch s + Z.to_nat (num_epochs a)) (step `mod` n) lm.2))
  else mret tt.

(** ** The end of an epoch (lines 152-164) *)

Definition epoch_end (a : args) (epoch : nat) : M unit :=
  let n := loader_len (train_loader a) in
  (* 152-154 *)
  modify (fun s => with_model (model_eval (model s)) s);;
  s ← get;
  let valid_acc_old := valid_acc s in
  let new_acc := test_accuracy (model s) (valid_loader a) (device a) in
  modify (with_layer_activations
            (test_accuracy_taps (model s) (valid_loader a) (layer_activations s)));;
  modify (with_valid_acc new_acc);;
  (* 155-156 *)
  modify (fun s => with_logs (log_extend "val_acc" (linspace valid_acc_old new_acc n) (logs s)) s);;
  (* 158-164 *)
  if negb (save_best a) || Qltb (best_acc s) new_acc then
    s ← get;
    emit (Plot (logs s) (Some n) 50 (Some (plot_loc a)));;
    modify (with_best_acc new_acc);;
    emit (Print (MsgSaving (ckpt a)));;
    let c := {| ck_model := model s; ck_optimizer := optimizer s; ck_epoch := epoch + 1;
                ck_acc := new_acc; ck_logs := logs s |} in
    torch_save (ckpt a) c;;
    emit (Save (ckpt a) c)
  else mret tt.

(** One iteration of the loop of line 117: lines 118-164. *)
Definition run_epoch (a : args) (epoch : nat) : M unit :=
  let l := train_loader a in
  modify (fun s => with_model (model_train (model s)) s);;
  let step_start := epoch * loader_len l in
  for_each (imap (fun i b => (step_start + i, b)) (loader_pass l epoch))
           (fun sb => train_step a epoch sb.1 sb.2);;
  epoch_end a epoch.

(** Line 117: [for epoch in range(init_epoch, init_epoch + args.num_epochs)]. *)
Definition train_loop (a : args) : M unit :=
  s ← get;
  for_each (seq (init_epoch s) (Z.to_nat (num_epochs a))) (run_epoch a).

(** ** After the loop (lines 166-168) *)

(** [state_dict['epoch']] where [state_dict] is bound to a module:
    [torch.nn.Module] has no [__getitem__]. *)
Definition module_getitem (m : Model) (key : string) : result pyobj := Raise TypeError.

Definition report_best (a : args) : M unit :=
  (* 167: state_dict = torch.load(args.ckpt, map_location=device)['model'] *)
  f ← read_file (ckpt a);
  match f with
  | None => raise FileNotFoundError
  | Some c =>
      emit (Load (ckpt a) (device a));;
      let state_dict := ck_model c in
      (* 168 *)
      epochs ← lift (module_getitem state_dict "epoch");
      s ← get;
      emit (Print (MsgLoadingBest (ckpt a) epochs (best_acc s)))
  end.

(** Lines 112-171. *)
Definition train_and_plot (a : args) : M unit :=
  f ← read_file (ckpt a);
  (if negb (bool_decide (is_Some f)) || resume_training a then
     emit (Print MsgTraining);;
     train_loop a;;
     if save_best a then report_best a else mret tt
   else mret tt);;
  (* 171 *)
  s ← get;
  emit (Plot (logs s) None 50 None).

(** ** Start-up (lines 58-90) *)

(** Lines 71-74: the binding of [model] after the two [if] statements;
    [None] when neither assigned it. *)
Definition select_network (a : args) : option Model :=
  let ds := get_dataset (dataset_to a) in
  let model := if String.eqb (network a) "resnet18"
               then Some (resnet18 (in_channels ds) (num_classes ds)) else None in
  if String.eqb (network a) "resnet34"
  then Some (resnet34 (in_channels ds) (num_classes ds)) else model.

(** Lines 80-90, given the variables bound by either branch of line 58:
    the first validation accuracy, and the capture buffer
    [[None] * len(bn_layers)] with one hook registered per layer. *)
Definition start_session (a : args) (m : Model) (o : Optimizer) (e0 : nat)
    (l : gmap string (list Q)) (acc : Q) : session :=
  {| model := m; optimizer := o; init_epoch := e0; logs := l; best_acc := acc;
     valid_acc := test_accuracy m (valid_loader a) (device a);
     layer_activations := replicate (length (get_bn_layers m)) PyNone;
     distortion := None |}.

(** Lines 67-77, the [else] branch of line 58.  Reading the unbound
    [model] at line 75 raises [NameError]. *)
Definition fresh_start (a : args) (w : world) : result session * world :=
  match select_network a with
  | None => (Raise NameError, w)
  | Some m =>
      (Ok (start_session a m (Adam m (lr a)) 0 ∅ 0%Q),
       emit_w (ToDevice "model" (device a)) w)
  end.

(** Line 58: [if os.path.exists(args.ckpt) and not args.reset]. *)
Definition setup (a : args) (w : world) : result session * world :=
  match disk w !! ckpt a with
  | Some c =>
      if negb (reset a) then
        (* 59-65 *)
        (Ok (start_session a (ck_model c) (ck_optimizer c) (ck_epoch c) (ck_logs c) (ck_acc c)),
         emit_w (Print (MsgLoading (ckpt a) (ck_epoch c) (ck_acc c)))
                (emit_w (Load (ckpt a) (device a)) w))
      else fresh_start a w
  | None => fresh_start a w
  end.

(** ** The whole script *)

(** Lines 43-171, what runs after the dump of the arguments: the final
    session, or the exception that ended the run, and the world
    afterwards. *)
Definition script_body (a : args) (w : world) : result session * world :=
  match setup a w with
  | (Raise e, w') => (Raise e, w')
  | (Ok s, w') =>
      match train_and_plot a (s, w') with
      | (Ok _, (s', w'')) => (Ok s', w'')
      | (Raise e, (_, w'')) => (Raise e, w'')
      end
  end.

(** Lines 38-171.  Line 41 prints every parsed argument. *)
Definition main (a0 : args) (w : world) : result session * world :=
  let a := resolve_ckpt a0 in
  script_body a (emit_w (Print (MsgArgs a)) w).

(** The events of training and of saving: a forward pass of a training
    step, an optimizer step, a checkpoint write. *)
Definition is_training_event (e : event) : bool :=
  match e with
  | Forward | OptimizerStep | Save _ _ => true
  | _ => false
  end.

Definition is_args_dump (e : event) : bool :=
  match e with
  | Print (MsgArgs _) => true
  | _ => false
  end.

(** ** Observations used in the statements *)

(** The validation accuracy that the end of an epoch measures (line 154),
    on the module switched to evaluation mode (line 152). *)
Definition measured_acc (a : args) (s : session) : Q :=
  test_accuracy (model_eval (model s)) (valid_loader a) (device a).

(** The sequence that the log holds for a metric; empty when the key is
    absent, as [logs[m]] on the [defaultdict]. *)
Definition series (l : gmap string (list Q)) (m : string) : list Q :=
  default [] (l !! m).

(** The session in which line 158 is reached. *)
Definition evaluated (a : args) (s : session) : session :=
  mk_session (model_eval (model s)) (optimizer s) (init_epoch s)
    (log_extend "val_acc"
       (linspace (valid_acc s) (measured_acc a s) (loader_len (train_loader a))) (logs s))
    (best_acc s) (measured_acc a s)
    (test_accuracy_taps (model_eval (model s)) (valid_loader a) (layer_activations s))
    (distortion s).

Definition saved_checkpoint (a : args) (epoch : nat) (s : session) : checkpoint :=
  {| ck_model := model_eval (model s); ck_optimizer := optimizer s;
     ck_epoch := epoch + 1; ck_acc := measured_acc a s;
     ck_logs := logs (evaluated a s) |}.

(** A buffer entry on which [.mean] raises [AttributeError]: [None] or a
    tuple. *)
Definition no_mean (o : pyobj) : Prop := py_mean023 o = Raise AttributeError.

(** What a training step never touches: everything but the module, the
    capture buffer, the distortion and the printed output. *)
Definition agree (st st' : session * world) : Prop :=
  optimizer st'.1 = optimizer st.1 /\ init_epoch st'.1 = init_epoch st.1 /\
  logs st'.1 = logs st.1 /\ best_acc st'.1 = best_acc st.1 /\
  valid_acc st'.1 = valid_acc st.1 /\ disk st'.2 = disk st.2.

(** The capture buffer after the hooks of a forward pass ran in order:
    each call overwrites the slot of its layer. *)
Definition captured (calls : list (nat * tensor4)) (buf : list pyobj) : list pyobj :=
  foldl (fun b c => <[c.1 := PyTuple [PyTensor c.2]]> b) buf calls.

(** The numbered batches of an epoch, as [enumerate(train_loader,
    start=step_start)] yields them (lines 119-120). *)
Definition epoch_steps (a : args) (epoch : nat) : list (nat * Batch) :=
  imap (fun i b => (epoch * loader_len (train_loader a) + i, b))
       (loader_pass (train_loader a) epoch).

(** The events of the lines that follow the exception of a training step
    or of the report: an optimizer step, a progress line, the report of
    the best checkpoint. *)
Definition is_unreached_event (e : event) : bool :=
  match e with
  | OptimizerStep | Print (MsgProgress _ _ _ _) | Print (MsgLoadingBest _ _ _) => true
  | _ => false
  end.

(** Line 171 on its own. *)
Definition final_plot (st : session * world) : result unit * (session * world) :=
  (Ok tt, (st.1, emit_w (Plot (logs st.1) None 50 None) st.2)).

(** The events of a world beyond those of an earlier one. *)
Definition extends_quietly (w w' : world) : Prop :=
  exists evs, out w' = (out w ++ evs)%list /\
              forallb (fun e => negb (is_unreached_event e)) evs = true.

(** The events of lines 159-163: the plot written beside the checkpoint,
    the announcement of the save and the save itself. *)
Definition is_save_event (e : event) : bool :=
  match e with
  | Plot _ _ _ (Some _) | Print (MsgSaving _) | Save _ _ => true
  | _ => false
  end.


(** A part of the script that never looks at what was printed or done
    before it: from a session and the files on disk alone it determines
    its result, the session and the files afterwards, and the events it
    adds to the record. *)
Definition output_blind {A} (c : M A) : Prop :=
  forall s d, exists r s' d' evs, forall o,
    c (s, {| disk := d; out := o |}) = (r, (s', {| disk := d'; out := (o ++ evs)%list |})).

Definition output_blind_script (f : world -> result session * world) : Prop :=
  forall d, exists r d' evs, forall o,
    f {| disk := d; out := o |} = (r, {| disk := d'; out := (o ++ evs)%list |}).

End Script.

(** ** A small implementation of the collaborators, for concrete runs *)

Record toy_model := { toy_acc : Q; toy_bn : list BatchNorm }.

(** A data set is its number of samples, at least one.  For a batch size
    of at least one a loader has [ceil(samples / batch_size)] batches, so
    at least one; each batch holds one 1x1x1x1 image. *)
Definition toy_loader (samples : positive) (bs : Z) (shuffle : bool) : Loader :=
  {| loader_len := S ((Pos.to_nat samples - 1) `div` Z.to_nat bs);
     loader_batch := fun _ _ => ([[[[1%Q]]]], [0]) |}.

(** [steps] evenly spaced points from [start] to [stop], a single point
    being [start]: the values of [torch.linspace] wherever single
    precision represents them, as it does for the accuracies 0, 1/2 and 1
    of the modules below and up to three steps. *)
Definition toy_linspace (start stop : Q) (steps : nat) : list Q :=
  match steps with
  | 0 => []
  | 1 => [start]
  | S (S m) =>
      map (fun i => (start + inject_Z (Z.of_nat i) * ((stop - start) / inject_Z (Z.of_nat (S m))))%Q)
          (seq 0 steps)
  end.

Definition toy_net (acc : Q) : toy_model :=
  {| toy_acc := acc; toy_bn := [ {| running_mean := [0%Q] |} ] |}.

Definition toy : Externals :=
  {| Model := toy_model; Optimizer := unit; Dataset := positive; Split := positive;
     Distortion := unit;
     get_dataset := fun name => if String.eqb name "CIFAR10" then 3%positive else 2%positive;
     train_set := fun d => d; valid_set := fun d => d; test_set := fun d => d;
     in_channels := fun _ => 1; num_classes := fun _ => 2;
     DataLoader := toy_loader;
     resnet18 := fun _ _ => toy_net (1 # 2);
     resnet34 := fun _ _ => toy_net (1 # 2);
     DistortionModelConv := fun _ _ => tt;
     distortion_call := fun _ x => x;
     get_bn_layers := toy_bn;
     test_accuracy := fun m _ _ => toy_acc m;
     test_accuracy_taps := fun _ _ buf => buf;
     model_train := fun m => m;
     model_eval := fun m => m;
     model_call := fun m _ => (m, [[1%Q; 0%Q]]);
     hook_calls := fun m x => imap (fun i _ => (i, x)) (toy_bn m);
     cross_entropy := fun _ _ => 1%Q;
     Adam := fun _ _ => tt;
     optimizer_step := fun o m _ _ => (o, m);
     linspace := toy_linspace |}.

Definition toy_ckpt_path : string := "models/model_transfer_CIFAR10.ckpt".

Definition toy_checkpoint (m : toy_model) (epoch : nat) (acc : Q)
    (l : gmap string (list Q)) : @checkpoint toy :=
  @Build_checkpoint toy m tt epoch acc l.

Definition empty_world : @world toy := @Build_world toy ∅ [].

Definition world_with (c : @checkpoint toy) : @world toy :=
  @Build_world toy {[ toy_ckpt_path := c ]} [].


(** Concrete arguments, checkpoints and sessions. *)

(** [--ckpt <path> --resume_training --unsupervised --num_epochs 1]. *)
Definition args_explicit_ckpt : args :=
  mk_args "PBCBarcelona" "Unet" "models/model.ckpt" toy_ckpt_path false 1 (1 # 100) 64
          true false true false false.

(** [--resume_training --save_best --num_epochs 0]. *)
Definition args_best_only : args :=
  mk_args "CIFAR10" "Unet" "models/model.ckpt" "auto" false 0 (1 # 100) 64
          false false true false true.

(** [--resume_training --unsupervised] and [--resume_training]. *)
Definition args_unsupervised : args :=
  mk_args "CIFAR10" "Unet" "models/model.ckpt" "auto" false 3 (1 # 100) 64
          true false true false false.
Definition args_supervised : args :=
  mk_args "CIFAR10" "Unet" "models/model.ckpt" "auto" false 3 (1 # 100) 64
          false false true false false.

(** [--batch_size 1 --save_best]: three batches per epoch. *)
Definition args_three_batches : args :=
  mk_args "CIFAR10" "Unet" "models/model.ckpt" toy_ckpt_path false 3 (1 # 100) 1
          false false true false true.

(** A checkpoint of one earlier epoch, with a log written by a supervised
    run. *)
Definition earlier_checkpoint : @checkpoint toy :=
  toy_checkpoint (toy_net 1) 1 (1 # 2)
    {[ "loss_crit" := [(7 # 10)%Q]; "val_acc" := [(1 # 2)%Q] ]}.

Definition image : tensor4 := [[[[1%Q]]]].

(** A session as the start-up leaves it for the loaded checkpoint, with
    validation accuracy 0 and best accuracy 1/2. *)
Definition toy_session (m : toy_model) : @session toy :=
  @mk_session toy m tt 1 ∅ (1 # 2) 0 (replicate (length (toy_bn m)) PyNone) None.

(** [--model_from models/model.pt]: no [.ckpt] in the path. *)
Definition args_other_extension : args :=
  mk_args "CIFAR10" "Unet" "models/model.pt" "auto" false 3 (1 # 100) 64
          false false false false false.

(** A session whose capture buffer holds the image itself. *)
Definition tensor_session : @session toy :=
  @with_layer_activations toy [PyTensor image] (toy_session (toy_net 1)).

(** A session whose capture buffer has no slot for the one layer. *)
Definition short_session : @session toy :=
  @with_layer_activations toy [] (toy_session (toy_net 1)).

(** [--ckpt ./run.ckpt]: a checkpoint path that starts with a dot. *)
Definition args_dot_path : args :=
  mk_args "CIFAR10" "Unet" "models/model.ckpt" "./run.ckpt" false 3 (1 # 100) 64
          false false false false false.

(** A module without normalisation layers. *)
Definition plain_net : toy_model := {| toy_acc := 1; toy_bn := [] |}.

(** * Properties *)

Section Properties.
Context {E : Externals}.

(** ** Start-up and the training gate *)

Lemma select_network_other (a : args) :
  network a <> "resnet18" -> network a <> "resnet34" -> select_network a = None.
Proof.
  intros H18 H34. unfold select_network.
  destruct (String.eqb_spec (network a) "resnet34") as [Heq|_]; [contradiction|].
  destruct (String.eqb_spec (network a) "resnet18") as [Heq|_]; [contradiction|].
  reflexivity.
Qed.

Lemma network_choices_unsupported (net : string) :
  In net network_choices -> net <> "resnet18" /\ net <> "resnet34".
Proof.
  unfold network_choices. simpl.
  intros [<-|[<-|[]]]; split; discriminate.
Qed.

(** C3.  A [--network] value that the parser accepts, or any other value
    outside resnet18 and resnet34, leaves [model] unbound after the two
    selection statements, which raise nothing; on a fresh start the
    failure only shows at the first use of the variable (line 75), as a
    [NameError], before anything else was done. *)
Theorem network_selection_leaves_model_unbound (a : args) :
  In (network a) network_choices \/
    (network a <> "resnet18" /\ network a <> "resnet34") ->
  (network a <> "resnet18" /\ network a <> "resnet34") /\
  select_network a = None /\
  forall w, disk w !! ckpt a = None \/ reset a = true ->
            setup a w = (Raise NameError, w).
Proof.
  intros H.
  assert (Hout : network a <> "resnet18" /\ network a <> "resnet34").
  { destruct H as [H|H]; [apply network_choices_unsupported, H | exact H]. }
  destruct Hout as [H18 H34].
  pose proof (select_network_other a H18 H34) as Hsel.
  repeat split; try assumption.
  intros w Hfresh. unfold setup, fresh_start. rewrite Hsel.
  destruct (disk w !! ckpt a) as [c|]; [|reflexivity].
  destruct Hfresh as [Hnone|Hreset]; [discriminate|].
  rewrite Hreset. reflexivity.
Qed.

(** C4.  When the checkpoint file exists and [--resume_training] is
    unset, whatever the other arguments, the run performs no forward pass
    of a training step, no optimizer step and no checkpoint write, and
    leaves every file on disk as it was. *)
Theorem existing_checkpoint_without_resume_trains_nothing
    (a : args) (w : world) (c : checkpoint) :
  disk w !! ckpt (resolve_ckpt a) = Some c ->
  resume_training a = false ->
  disk (main a w).2 = disk w /\
  exists evs, out (main a w).2 = (out w ++ evs)%list /\
              forallb (fun e => negb (is_training_event e)) evs = true.
Proof.
  intros Hdisk Hres.
  assert (Hres' : resume_training (resolve_ckpt a) = false).
  { unfold resolve_ckpt. destruct (String.eqb (ckpt a) "auto"); exact Hres. }
  unfold main. set (a' := resolve_ckpt a) in *. clearbody a'.
  unfold script_body, setup, fresh_start. cbn [emit_w disk]. rewrite Hdisk.
  destruct (reset a'); cbn [negb].
  - destruct (select_network a') as [m|].
    + unfold train_and_plot, read_file, mbind, M_bind, get, emit, mret, M_ret.
      cbn. rewrite Hdisk, Hres'. cbn.
      split; [reflexivity|]. eexists. rewrite <- !app_assoc. split; reflexivity.
    + cbn. split; [reflexivity|]. eexists. split; reflexivity.
  - unfold train_and_plot, read_file, mbind, M_bind, get, emit, mret, M_ret.
    cbn. rewrite Hdisk, Hres'. cbn.
    split; [reflexivity|]. eexists. rewrite <- !app_assoc. split; reflexivity.
Qed.

(** ** The training step *)

Lemma agree_refl st : agree st st.
Proof. repeat split. Qed.

Lemma agree_trans st1 st2 st3 : agree st1 st2 -> agree st2 st3 -> agree st1 st3.
Proof.
  unfold agree. intros (?&?&?&?&?&?) (?&?&?&?&?&?).
  repeat split; congruence.
Qed.

Lemma hooks_agree (calls : list (nat * tensor4)) (st : session * world) :
  agree st (for_each calls (fun c => layer_hook_wrapper c.1 (PyTuple [PyTensor c.2])) st).2.
Proof.
  revert st. induction calls as [|c calls IH]; intros st; [apply agree_refl|].
  cbn [for_each]. unfold mbind, M_bind at 1.
  unfold layer_hook_wrapper at 1. unfold mbind, M_bind at 1. unfold get at 1.
  cbn [fst snd].
  destruct (decide (c.1 < length (layer_activations st.1))).
  - unfold modify at 1. cbn [fst snd].
    eapply agree_trans; [|apply IH]. repeat split.
  - unfold raise. cbn [fst snd]. apply agree_refl.
Qed.

Lemma call_model_agree (x : tensor4) (st : session * world) :
  agree st (call_model x st).2.
Proof.
  unfold call_model. unfold mbind at 1, M_bind at 1. unfold get at 1. cbn [fst snd].
  unfold mbind at 1, M_bind at 1. unfold emit at 1. cbn [fst snd].
  unfold mbind at 1, M_bind at 1.
  pose proof (hooks_agree (hook_calls (model st.1) x) (st.1, emit_w Forward st.2)) as H.
  destruct (for_each _ _ _) as [[u|e] st2]; cbn [fst snd] in *.
  - unfold mbind, M_bind, modify, mret, M_ret. cbn [fst snd].
    eapply agree_trans; [|eapply agree_trans; [apply H|]]; repeat split.
  - eapply agree_trans; [|apply H]. repeat split.
Qed.

(** The penalty computation returns a Python list whenever it returns. *)
Lemma get_bn_loss_list (st : session * world) :
  (get_bn_loss st).2 = st /\
  ((exists l, (get_bn_loss st).1 = Ok (PyList l)) \/
   (exists e, (get_bn_loss st).1 = Raise e)).
Proof.
  unfold get_bn_loss, mbind, M_bind, get, lift. cbn [fst snd].
  split; [reflexivity|].
  destruct (rmap _ _) as [l|e]; cbn [rbind]; eauto.
Qed.

#[local] Ltac raised :=
  cbn [fst snd]; eexists _, _; split; [reflexivity | eauto using agree_trans].

(** No training step completes: the penalty is the list returned by
    [get_bn_loss], on which [.item()] (line 135, 139) and the addition to
    the task loss (line 138) raise. *)
Lemma train_step_raises (a : args) (epoch step : nat) (b : Batch) (st : session * world) :
  exists e st', train_step a epoch step b st = (Raise e, st') /\ agree st st'.
Proof.
  unfold train_step.
  unfold mbind at 1, M_bind at 1, emit at 1. cbn [fst snd].
  unfold mbind at 1, M_bind at 1, emit at 1. cbn [fst snd].
  set (w1 := emit_w _ (emit_w _ st.2)).
  unfold mbind at 1, M_bind at 1.
  assert (Hx : exists x s1, agree st (s1, w1) /\
    (if distortion_test a
     then s ← get;
          d ← match distortion s with
              | None =>
                  modify (with_distortion (Some (DistortionModelConv (shape b.1) (1 # 10))));;
                  mret (DistortionModelConv (shape b.1) (1 # 10))
              | Some d => mret d
              end;
          mret (distortion_call d b.1)
     else mret b.1) (st.1, w1) = (Ok x, (s1, w1))).
  { destruct (distortion_test a).
    - unfold mbind, M_bind, get, modify, mret, M_ret. cbn [fst snd].
      destruct (distortion st.1); cbn [fst snd];
        eexists _, _; (split; [|reflexivity]); repeat split.
    - eexists _, _. split; [|reflexivity]. repeat split. }
  destruct Hx as (x & s1 & Hag & ->).
  unfold mbind at 1, M_bind at 1.
  pose proof (call_model_agree x (s1, w1)) as Hcall.
  destruct (call_model x (s1, w1)) as [[logits|e] st2]; cbn [fst snd] in Hcall;
    [|raised].
  unfold mbind at 1, M_bind at 1.
  destruct (get_bn_loss_list st2) as [Hst [[l Hl]|[e He]]];
    destruct (get_bn_loss st2) as [r st3]; cbn [fst snd] in *; subst r st3;
    [|raised].
  unfold mbind at 1, M_bind at 1.
  destruct (unsupervised a).
  - unfold mbind at 1, M_bind at 1, lift at 1. cbn [py_item]. raised.
  - unfold mbind at 1, M_bind at 1, lift at 1. cbn [py_add_scalar]. raised.
Qed.

(** ** The end of an epoch *)

Lemma epoch_end_eq (a : args) (epoch : nat) (s : session) (w : world) :
  epoch_end a epoch (s, w) =
  if negb (save_best a) || Qltb (best_acc s) (measured_acc a s)
  then
    match get_bn_layers (model_eval (model s)) with
    | [] =>
        (Ok tt,
         (with_best_acc (measured_acc a s) (evaluated a s),
          {| disk := <[ckpt a := saved_checkpoint a epoch s]> (disk w);
             out := out w ++ [Plot (logs (evaluated a s)) (Some (loader_len (train_loader a)))
                                   50 (Some (plot_loc a));
                              Print (MsgSaving (ckpt a));
                              Save (ckpt a) (saved_checkpoint a epoch s)] |}))
    | _ :: _ =>
        (Raise PicklingError,
         (with_best_acc (measured_acc a s) (evaluated a s),
          {| disk := disk w;
             out := out w ++ [Plot (logs (evaluated a s)) (Some (loader_len (train_loader a)))
                                   50 (Some (plot_loc a));
                              Print (MsgSaving (ckpt a))] |}))
    end
  else (Ok tt, (evaluated a s, w)).
Proof.
  unfold epoch_end, mbind, M_bind, modify, get, emit, torch_save, mret, M_ret.
  unfold saved_checkpoint, evaluated, measured_acc.
  cbn [fst snd with_model with_logs with_valid_acc with_layer_activations with_best_acc
       model optimizer init_epoch logs best_acc valid_acc layer_activations distortion].
  destruct (negb (save_best a) || Qltb _ _); [|reflexivity].
  unfold emit_w.
  cbn [fst snd disk out ck_model with_model with_logs with_valid_acc with_layer_activations
       model optimizer init_epoch logs best_acc valid_acc layer_activations distortion].
  destruct (get_bn_layers (model_eval (model s)));
    cbn [fst snd disk out]; rewrite <- !app_assoc; reflexivity.
Qed.

(** ** The loops *)

Lemma steps_raise (a : args) (epoch : nat) (l : list (nat * Batch)) (st : session * world) :
  l <> [] ->
  exists e st', for_each l (fun sb => train_step a epoch sb.1 sb.2) st = (Raise e, st') /\
                agree st st'.
Proof.
  destruct l as [|sb l]; [congruence|]. intros _.
  cbn [for_each]. unfold mbind, M_bind.
  destruct (train_step_raises a epoch sb.1 sb.2 st) as (e & st' & -> & Hag). eauto.
Qed.

(** An epoch either has no batch, and is its end, or is ended by the
    exception of its first step. *)
Lemma run_epoch_cases (a : args) (epoch : nat) (st : session * world) :
  (loader_len (train_loader a) = 0 /\
   run_epoch a epoch st =
     epoch_end a epoch (with_model (model_train (model st.1)) st.1, st.2)) \/
  (0 < loader_len (train_loader a) /\
   exists e st', run_epoch a epoch st = (Raise e, st') /\ agree st st').
Proof.
  unfold run_epoch, loader_pass.
  destruct (loader_len (train_loader a)) as [|n] eqn:Hn.
  - left. split; [reflexivity|].
    cbn [seq map imap for_each]. unfold mbind, M_bind, modify, mret, M_ret.
    reflexivity.
  - right. split; [lia|].
    unfold mbind at 1, M_bind at 1, modify at 1. cbn [fst snd].
    unfold mbind at 1, M_bind at 1.
    edestruct (steps_raise a epoch) as (e & st' & -> & Hag);
      [|exists e, st'; split; [reflexivity|]].
    + cbn [seq map imap]. discriminate.
    + eapply agree_trans; [|exact Hag]. repeat split.
Qed.

(** ** The metrics log *)

Lemma series_log_extend (m m' : string) (vs : list Q) (l : gmap string (list Q)) :
  series (log_extend m vs l) m' =
  if decide (m = m') then (series l m ++ vs)%list else series l m'.
Proof.
  unfold series, log_extend. rewrite lookup_insert.
  destruct (decide (m = m')); reflexivity.
Qed.

Lemma epoch_end_logs (a : args) (epoch : nat) (s : session) (w : world) :
  logs (epoch_end a epoch (s, w)).2.1 =
  log_extend "val_acc"
    (linspace (valid_acc s) (measured_acc a s) (loader_len (train_loader a))) (logs s).
Proof.
  rewrite epoch_end_eq.
  destruct (negb (save_best a) || Qltb _ _); [|reflexivity].
  destruct (get_bn_layers _); reflexivity.
Qed.

(** ** The activation tap and the penalty *)

Lemma hook_stores_inputs (idx : nat) (inputs : pyobj) (s : session) (w : world) :
  idx < length (layer_activations s) ->
  layer_hook_wrapper idx inputs (s, w) =
    (Ok tt, (with_layer_activations (<[idx := inputs]> (layer_activations s)) s, w)) /\
  <[idx := inputs]> (layer_activations s) !! idx = Some inputs.
Proof.
  intros Hlt. unfold layer_hook_wrapper, mbind, M_bind, get, modify. cbn [fst snd].
  rewrite decide_True by exact Hlt. split; [reflexivity|].
  apply list_lookup_insert_eq, Hlt.
Qed.

Lemma hooks_no_mean (calls : list (nat * tensor4)) (st : session * world) :
  Forall no_mean (layer_activations st.1) ->
  Forall no_mean
    (layer_activations
       (for_each calls (fun c => layer_hook_wrapper c.1 (PyTuple [PyTensor c.2])) st).2.1).
Proof.
  revert st. induction calls as [|c calls IH]; intros st Hst; [exact Hst|].
  cbn [for_each]. unfold mbind, M_bind at 1.
  unfold layer_hook_wrapper at 1. unfold mbind, M_bind at 1. unfold get at 1.
  cbn [fst snd].
  destruct (decide (c.1 < length (layer_activations st.1))).
  - unfold modify at 1. cbn [fst snd]. apply IH. cbn [fst layer_activations with_layer_activations].
    apply Forall_insert; [exact Hst|reflexivity].
  - unfold raise. cbn [fst snd]. exact Hst.
Qed.

Lemma call_model_no_mean (x : tensor4) (st : session * world) :
  Forall no_mean (layer_activations st.1) ->
  Forall no_mean (layer_activations (call_model x st).2.1).
Proof.
  intros Hst.
  unfold call_model. unfold mbind at 1, M_bind at 1. unfold get at 1. cbn [fst snd].
  unfold mbind at 1, M_bind at 1. unfold emit at 1. cbn [fst snd].
  unfold mbind at 1, M_bind at 1.
  pose proof (hooks_no_mean (hook_calls (model st.1) x) (st.1, emit_w Forward st.2) Hst) as H.
  destruct (for_each _ _ _) as [[u|e] st2]; cbn [fst snd] in *; [|exact H].
  unfold mbind, M_bind, modify, mret, M_ret. cbn [fst snd]. exact H.
Qed.

Lemma get_bn_loss_no_mean (st : session * world) :
  Forall no_mean (layer_activations st.1) ->
  get_bn_layers (model st.1) <> [] ->
  layer_activations st.1 <> [] ->
  get_bn_loss st = (Raise AttributeError, st).
Proof.
  intros Hall Hbn Hbuf.
  unfold get_bn_loss, mbind, M_bind, get, lift. cbn [fst snd].
  destruct (get_bn_layers (model st.1)) as [|bn bns]; [congruence|].
  destruct (layer_activations st.1) as [|o buf]; [congruence|].
  apply Forall_cons in Hall. destruct Hall as [Ho _].
  cbn [zip zip_with rmap fst snd]. unfold layer_penalty. rewrite Ho. reflexivity.
Qed.

Lemma layer_penalty_tensor (bn : BatchNorm) (t : tensor4) :
  length (running_mean bn) = length (mean023 t) ->
  layer_penalty bn (PyTensor t) =
    Ok (PyScalar (sum_squares (zip_with Qminus (running_mean bn) (mean023 t)))).
Proof.
  intros Hlen. unfold layer_penalty. cbn [py_mean023 rbind]. unfold tensor_sub.
  rewrite decide_True by exact Hlen. reflexivity.
Qed.

(** C2.  The hook of layer [idx] stores in slot [idx] the object it is
    passed; a forward pass passes the tuple of the layer's arguments, not
    the tensor; so after the forward pass of a training step, started
    from the buffer that the script sets up, every slot is [None] or a
    tuple, and [get_bn_loss] raises [AttributeError] at [input.mean]
    instead of returning the penalties.  Had the slot held the tensor, the
    penalty of the layer would be the sum over the channels of the squared
    difference between the running mean and the mean of the input. *)
Theorem forward_captures_argument_tuples
    (a : args) (m : Model) (o : Optimizer) (e0 : nat) (l : gmap string (list Q))
    (acc : Q) (x : tensor4) (w : world) :
  let st' := (call_model x (start_session a m o e0 l acc, w)).2 in
  (forall idx inputs s w0, idx < length (layer_activations s) ->
     layer_activations (layer_hook_wrapper idx inputs (s, w0)).2.1 !! idx = Some inputs) /\
  (forall bn xs, layer_penalty bn (PyTuple xs) = Raise AttributeError) /\
  (forall bn t, length (running_mean bn) = length (mean023 t) ->
     layer_penalty bn (PyTensor t) =
       Ok (PyScalar (sum_squares (zip_with Qminus (running_mean bn) (mean023 t))))) /\
  Forall no_mean (layer_activations st'.1) /\
  (get_bn_layers (model st'.1) <> [] -> layer_activations st'.1 <> [] ->
   get_bn_loss st' = (Raise AttributeError, st')).
Proof.
  cbn zeta.
  assert (Hall : Forall no_mean (layer_activations (call_model x (start_session a m o e0 l acc, w)).2.1)).
  { apply call_model_no_mean. cbn [fst start_session layer_activations].
    apply Forall_replicate. reflexivity. }
  split; [|split; [|split; [|split]]].
  - intros idx inputs s w0 Hlt.
    destruct (hook_stores_inputs idx inputs s w0 Hlt) as [-> Hget]. exact Hget.
  - reflexivity.
  - apply layer_penalty_tensor.
  - exact Hall.
  - intros Hbn Hbuf. apply get_bn_loss_no_mean; assumption.
Qed.

(** C1.  The penalty bound to [loss_bn] is the list returned by
    [get_bn_loss], never the sum of its entries; [.item()] on it raises
    [AttributeError] (unsupervised mode, line 135) and adding it to the
    cross-entropy raises [TypeError] (line 138); so every training step
    ends in an exception, before any metric is logged and before the
    optimizer steps. *)
Theorem penalty_is_an_unsummed_list :
  (forall st, (get_bn_loss st).2 = st /\
     ((exists l, (get_bn_loss st).1 = Ok (PyList l)) \/
      (exists e, (get_bn_loss st).1 = Raise e))) /\
  (forall l, py_item (PyList l) = Raise AttributeError) /\
  (forall q l, py_add_scalar q (PyList l) = Raise TypeError) /\
  (forall a epoch step b st,
     exists e st', train_step a epoch step b st = (Raise e, st') /\ agree st st').
Proof.
  split; [apply get_bn_loss_list|]. split; [reflexivity|]. split; [reflexivity|].
  apply train_step_raises.
Qed.

(** ** After the loop *)

Lemma report_best_raises (a : args) (st : session * world) :
  exists e w', report_best a st = (Raise e, (st.1, w')) /\
    disk w' = disk st.2 /\
    ((e = FileNotFoundError /\ disk st.2 !! ckpt a = None /\ out w' = out st.2) \/
     (e = TypeError /\ is_Some (disk st.2 !! ckpt a) /\
      out w' = (out st.2 ++ [Load (ckpt a) (device a)])%list)).
Proof.
  unfold report_best, mbind, M_bind, read_file. cbn [fst snd].
  destruct (disk st.2 !! ckpt a) as [c|] eqn:Hc.
  - unfold emit, lift, module_getitem. cbn [fst snd].
    eexists _, _. split; [reflexivity|]. split; [reflexivity|].
    right. repeat split. eauto.
  - unfold raise. destruct st as [s w]. eexists _, _. split; [reflexivity|].
    split; [reflexivity|]. left. repeat split.
Qed.

Lemma train_and_plot_completed (a : args) (st st' : session * world) (u : unit) :
  train_and_plot a st = (Ok u, st') ->
  last (out st'.2) = Some (Plot (logs st'.1) None 50 None).
Proof.
  unfold train_and_plot. unfold mbind at 1, M_bind at 1, read_file at 1. cbn [fst snd].
  unfold mbind at 1, M_bind at 1.
  match goal with
  | |- match ?c with _ => _ end = _ -> _ => destruct c as [[v|e] st1]; [|discriminate]
  end.
  unfold mbind, M_bind, get, emit. cbn [fst snd].
  intros H. injection H as _ H. subst st'. cbn [fst snd emit_w out]. apply last_snoc.
Qed.

Lemma train_and_plot_best_only (a : args) (st : session * world) :
  save_best a = true ->
  disk st.2 !! ckpt a = None \/ resume_training a = true ->
  exists e st', train_and_plot a st = (Raise e, st').
Proof.
  intros Hsb Hgate.
  unfold train_and_plot. unfold mbind at 1, M_bind at 1, read_file at 1. cbn [fst snd].
  assert (Hc : negb (bool_decide (is_Some (disk st.2 !! ckpt a))) || resume_training a = true).
  { destruct Hgate as [-> | ->]; [reflexivity|apply orb_true_r]. }
  rewrite Hc, Hsb.
  unfold mbind at 1, M_bind at 1.
  unfold mbind at 1, M_bind at 1, emit at 1. cbn [fst snd].
  unfold mbind at 1, M_bind at 1.
  destruct (train_loop a _) as [[u|e] st1]; [|eauto].
  destruct (report_best_raises a st1) as (e & w' & -> & _). eauto.
Qed.

(** C9.  A run that reaches the end of the script has rendered the plot
    of the accumulated log as its last action (line 171).  With
    [--save_best] no run that enters the training branch reaches it: when
    the loop completes, line 167 reloads the checkpoint but keeps only its
    module, and line 168 indexes that module with ['epoch'], which raises
    ([FileNotFoundError] at line 167 when no checkpoint was written);
    the stored epoch count and accuracy are never reported. *)
Theorem best_report_raises (a : args) (st : session * world) :
  (forall u st', train_and_plot a st = (Ok u, st') ->
     last (out st'.2) = Some (Plot (logs st'.1) None 50 None)) /\
  (exists e w', report_best a st = (Raise e, (st.1, w')) /\
     disk w' = disk st.2 /\
     ((e = FileNotFoundError /\ disk st.2 !! ckpt a = None /\ out w' = out st.2) \/
      (e = TypeError /\ is_Some (disk st.2 !! ckpt a) /\
       out w' = (out st.2 ++ [Load (ckpt a) (device a)])%list))) /\
  (save_best a = true ->
   disk st.2 !! ckpt a = None \/ resume_training a = true ->
   exists e st', train_and_plot a st = (Raise e, st')).
Proof.
  split; [|split].
  - intros u st'. apply train_and_plot_completed.
  - apply report_best_raises.
  - apply train_and_plot_best_only.
Qed.

(** ** The [--cuda] flag *)

Lemma resolve_ckpt_with_cuda (a : args) (b : bool) :
  resolve_ckpt (with_cuda b a) = with_cuda b (resolve_ckpt a).
Proof.
  unfold resolve_ckpt. cbn [ckpt with_cuda].
  destruct (String.eqb (ckpt a) "auto"); reflexivity.
Qed.

Lemma script_body_with_cuda (a : args) (b : bool) (w : world) :
  script_body (with_cuda b a) w = script_body a w.
Proof. destruct a. reflexivity. Qed.

(** Nothing after the dump of the arguments reads what was printed: each
    part of the script is blind to the record of events. *)

Lemma blind_ret {A} (x : A) : output_blind (mret x).
Proof. intros s d. exists (Ok x), s, d, []. intros o. rewrite app_nil_r. reflexivity. Qed.

Lemma blind_bind {A B} (c : M A) (k : A -> M B) :
  output_blind c -> (forall x, output_blind (k x)) -> output_blind (c ≫= k).
Proof.
  intros Hc Hk s d. destruct (Hc s d) as (r & s1 & d1 & evs1 & H1).
  destruct r as [x|e].
  - destruct (Hk x s1 d1) as (r2 & s2 & d2 & evs2 & H2).
    exists r2, s2, d2, (evs1 ++ evs2)%list. intros o.
    unfold mbind, M_bind. rewrite H1, H2, app_assoc. reflexivity.
  - exists (Raise e), s1, d1, evs1. intros o. unfold mbind, M_bind. rewrite H1. reflexivity.
Qed.

Lemma blind_get : output_blind get.
Proof. intros s d. exists (Ok s), s, d, []. intros o. rewrite app_nil_r. reflexivity. Qed.

Lemma blind_modify (f : session -> session) : output_blind (modify f).
Proof. intros s d. exists (Ok tt), (f s), d, []. intros o. rewrite app_nil_r. reflexivity. Qed.

Lemma blind_raise {A} (e : exn) : output_blind (@raise _ A e).
Proof. intros s d. exists (Raise e), s, d, []. intros o. rewrite app_nil_r. reflexivity. Qed.

Lemma blind_lift {A} (r : result A) : output_blind (lift r).
Proof. intros s d. exists r, s, d, []. intros o. rewrite app_nil_r. reflexivity. Qed.

Lemma blind_emit (e : event) : output_blind (emit e).
Proof. intros s d. exists (Ok tt), s, d, [e]. intros o. reflexivity. Qed.

Lemma blind_read_file (path : string) : output_blind (read_file path).
Proof. intros s d. exists (Ok (d !! path)), s, d, []. intros o. rewrite app_nil_r. reflexivity. Qed.

Lemma blind_torch_save (path : string) (c : checkpoint) : output_blind (torch_save path c).
Proof.
  intros s d. unfold torch_save. destruct (get_bn_layers (ck_model c)).
  - exists (Ok tt), s, (<[path := c]> d), []. intros o. rewrite app_nil_r. reflexivity.
  - exists (Raise PicklingError), s, d, []. intros o. rewrite app_nil_r. reflexivity.
Qed.

Lemma blind_for_each {A} (l : list A) (body : A -> M unit) :
  (forall x, output_blind (body x)) -> output_blind (for_each l body).
Proof.
  intros Hb. induction l as [|x l IH]; cbn [for_each].
  - apply blind_ret.
  - apply blind_bind; [apply Hb|intros _; exact IH].
Qed.

#[local] Ltac blind_step :=
  lazymatch goal with
  | |- output_blind (mret _) => apply blind_ret
  | |- output_blind get => apply blind_get
  | |- output_blind (modify _) => apply blind_modify
  | |- output_blind (raise _) => apply blind_raise
  | |- output_blind (lift _) => apply blind_lift
  | |- output_blind (emit _) => apply blind_emit
  | |- output_blind (read_file _) => apply blind_read_file
  | |- output_blind (torch_save _ _) => apply blind_torch_save
  | |- output_blind (for_each _ _) => apply blind_for_each; intros ?
  | |- output_blind (mbind _ _) => apply blind_bind; [|intros ?]
  | |- output_blind (if ?b then _ else _) => destruct b
  | |- output_blind (match ?x with _ => _ end) => destruct x
  | |- output_blind (let _ := _ in _) => cbv zeta
  end.

Lemma blind_hook (idx : nat) (inputs : pyobj) : output_blind (layer_hook_wrapper idx inputs).
Proof. unfold layer_hook_wrapper. repeat blind_step. Qed.

Lemma blind_call_model (x : tensor4) : output_blind (call_model x).
Proof.
  unfold call_model.
  repeat lazymatch goal with
         | |- output_blind (layer_hook_wrapper _ _) => apply blind_hook
         | _ => blind_step
         end.
Qed.

Lemma blind_get_bn_loss : output_blind get_bn_loss.
Proof. unfold get_bn_loss. repeat blind_step. Qed.

Lemma blind_train_step (a : args) (epoch step : nat) (b : Batch) :
  output_blind (train_step a epoch step b).
Proof.
  unfold train_step.
  repeat lazymatch goal with
         | |- output_blind (call_model _) => apply blind_call_model
         | |- output_blind get_bn_loss => apply blind_get_bn_loss
         | _ => blind_step
         end.
Qed.

Lemma blind_epoch_end (a : args) (epoch : nat) : output_blind (epoch_end a epoch).
Proof. unfold epoch_end. repeat blind_step. Qed.

Lemma blind_run_epoch (a : args) (epoch : nat) : output_blind (run_epoch a epoch).
Proof.
  unfold run_epoch.
  repeat lazymatch goal with
         | |- output_blind (train_step _ _ _ _) => apply blind_train_step
         | |- output_blind (epoch_end _ _) => apply blind_epoch_end
         | _ => blind_step
         end.
Qed.

Lemma blind_report_best (a : args) : output_blind (report_best a).
Proof. unfold report_best. repeat blind_step. Qed.

Lemma blind_train_and_plot (a : args) : output_blind (train_and_plot a).
Proof.
  unfold train_and_plot, train_loop.
  repeat lazymatch goal with
         | |- output_blind (run_epoch _ _) => apply blind_run_epoch
         | |- output_blind (report_best _) => apply blind_report_best
         | _ => blind_step
         end.
Qed.

Lemma blind_fresh_start (a : args) : output_blind_script (fresh_start a).
Proof.
  intros d. unfold fresh_start. destruct (select_network a) as [m|].
  - eexists _, d, [_]. intros o. reflexivity.
  - exists (Raise NameError), d, []. intros o. rewrite app_nil_r. reflexivity.
Qed.

Lemma blind_setup (a : args) : output_blind_script (setup a).
Proof.
  intros d. unfold setup. cbn [disk].
  destruct (d !! ckpt a) as [c|]; [destruct (negb (reset a))|];
    try apply blind_fresh_start.
  eexists _, d, [_; _]. intros o. unfold emit_w. cbn [disk out].
  rewrite <- app_assoc. reflexivity.
Qed.

Lemma blind_script_body (a : args) : output_blind_script (script_body a).
Proof.
  intros d. unfold script_body.
  destruct (blind_setup a d) as (r & d1 & evs1 & H1).
  destruct r as [s|e].
  - destruct (blind_train_and_plot a s d1) as (r2 & s2 & d2 & evs2 & H2).
    exists (match r2 with Ok _ => Ok s2 | Raise e => Raise e end), d2, (evs1 ++ evs2)%list.
    intros o. rewrite H1, H2, app_assoc. destruct r2; reflexivity.
  - exists (Raise e), d1, evs1. intros o. rewrite H1. reflexivity.
Qed.

(** C10, as the code has it.  The compute device is the constant
    ['cuda'] for every argument vector, and two runs on the same files
    whose argument vectors differ only in [--cuda] have the same result
    and leave the same files; they do and print the same, device
    placements included, except for the dump of the arguments (line 41),
    which prints the value of the flag. *)
Theorem cuda_flag_only_shows_in_args_dump (a : args) (b : bool) (w : world) :
  device (with_cuda b a) = "cuda" /\
  device a = "cuda" /\
  (main (with_cuda b a) w).1 = (main a w).1 /\
  disk (main (with_cuda b a) w).2 = disk (main a w).2 /\
  exists evs,
    out (main (with_cuda b a) w).2
      = (out w ++ Print (MsgArgs (resolve_ckpt (with_cuda b a))) :: evs)%list /\
    out (main a w).2 = (out w ++ Print (MsgArgs (resolve_ckpt a)) :: evs)%list.
Proof.
  split; [reflexivity|]. split; [reflexivity|].
  unfold main. rewrite resolve_ckpt_with_cuda, script_body_with_cuda.
  set (a' := resolve_ckpt a). unfold emit_w.
  destruct (blind_script_body a' (disk w)) as (r & d' & evs & H).
  rewrite !H. cbn [fst snd disk out].
  split; [reflexivity|]. split; [reflexivity|].
  exists evs. rewrite <- !app_assoc. split; reflexivity.
Qed.
End Properties.

(** * Concrete runs *)

Example resolve_default :
  ckpt (resolve_ckpt default_args) = toy_ckpt_path /\
  plot_loc (resolve_ckpt default_args) = "models/model_transfer_CIFAR10.png".
Proof. split; reflexivity. Qed.

(** The session that the start-up builds from [earlier_checkpoint]. *)
Example setup_from_checkpoint :
  @setup toy args_explicit_ckpt (world_with earlier_checkpoint) =
  (Ok (@start_session toy args_explicit_ckpt (toy_net 1) tt 1 (ck_logs earlier_checkpoint) (1 # 2)),
   emit_w (Print (MsgLoading toy_ckpt_path 1 (1 # 2)))
          (emit_w (Load toy_ckpt_path "cuda") (world_with earlier_checkpoint))).
Proof. vm_compute. reflexivity. Qed.

(** ** Start-up and the training gate *)

Lemma network_selection_witness :
  @select_network toy default_args = None /\
  @setup toy (resolve_ckpt default_args) empty_world = (Raise NameError, empty_world).
Proof.
  destruct (@network_selection_leaves_model_unbound toy (resolve_ckpt default_args))
    as (_ & Hsel & Hsetup).
  - left. cbn. left. reflexivity.
  - split; [exact Hsel|]. apply Hsetup. left. reflexivity.
Defined.

Lemma existing_checkpoint_witness :
  disk (@main toy default_args (world_with earlier_checkpoint)).2
    = disk (world_with earlier_checkpoint) /\
  exists evs,
    out (@main toy default_args (world_with earlier_checkpoint)).2
      = (out (world_with earlier_checkpoint) ++ evs)%list /\
    forallb (fun e => negb (is_training_event e)) evs = true.
Proof.
  apply (@existing_checkpoint_without_resume_trains_nothing toy default_args
           (world_with earlier_checkpoint) earlier_checkpoint).
  - vm_compute. reflexivity.
  - reflexivity.
Defined.

(** ** The regularisation term on a concrete module *)

(** One forward pass of the module with one normalisation layer: the slot
    holds the tuple around the image, the penalty computation raises; on a
    buffer that holds the image itself it returns a list, not a scalar. *)
Example captured_tuple_example :
  let s := toy_session (toy_net 1) in
  let st' := (@call_model toy image (s, empty_world)).2 in
  layer_activations st'.1 = [PyTuple [PyTensor image]] /\
  @get_bn_loss toy st' = (Raise AttributeError, st') /\
  (@get_bn_loss toy (@with_layer_activations toy [PyTensor image] s, empty_world)).1
    = Ok (PyList [PyScalar 1%Q]).
Proof. cbn zeta. split; [|split]; vm_compute; reflexivity. Qed.

(** A step on a module without normalisation layers: the penalty is the
    empty list; [.item()] raises in unsupervised mode, the addition to the
    cross-entropy in supervised mode. *)
Example unsummed_penalty_example :
  (@train_step toy args_unsupervised 1 0 (image, [0]) (toy_session plain_net, empty_world)).1
    = Raise AttributeError /\
  (@train_step toy args_supervised 1 0 (image, [0]) (toy_session plain_net, empty_world)).1
    = Raise TypeError.
Proof. split; vm_compute; reflexivity. Qed.

(** ** After the loop *)

Lemma best_report_witness :
  exists e st',
    @train_and_plot toy (resolve_ckpt args_best_only)
      (@start_session toy (resolve_ckpt args_best_only) (toy_net 1) tt 1
            (ck_logs earlier_checkpoint) (1 # 2),
       world_with earlier_checkpoint)
    = (Raise e, st').
Proof.
  apply (@best_report_raises toy (resolve_ckpt args_best_only)).
  - reflexivity.
  - right. reflexivity.
Defined.

(** [--resume_training --save_best --num_epochs 0] on an existing
    checkpoint: the loop has no epoch, the checkpoint is reloaded, the
    report raises [TypeError]; nothing is printed by line 168 and nothing
    is plotted. *)
Example best_report_type_error :
  @main toy args_best_only (world_with earlier_checkpoint) =
  (Raise TypeError,
   @Build_world toy (disk (world_with earlier_checkpoint))
     [Print (MsgArgs (resolve_ckpt args_best_only));
      Load toy_ckpt_path "cuda";
      Print (MsgLoading toy_ckpt_path 1 (1 # 2));
      Print MsgTraining;
      Load toy_ckpt_path "cuda"]).
Proof. vm_compute. reflexivity. Qed.

(** ** The [--cuda] flag *)

(** The dump of the arguments shows the flag. *)
Lemma cuda_flag_changes_args_dump :
  filter (fun e => is_args_dump e = true)
         (out (@main toy (with_cuda true default_args) empty_world).2)
  <> filter (fun e => is_args_dump e = true)
            (out (@main toy default_args empty_world).2).
Proof. vm_compute. discriminate. Qed.

(** * Further properties of the script *)

(** ** Paths: the checkpoint and the plot (lines 38-39 and 54) *)

Lemma append_cons (c : Ascii.ascii) (s1 s2 : string) :
  String c s1 +:+ s2 = String c (s1 +:+ s2).
Proof. reflexivity. Qed.

Lemma append_empty_l (s : string) : EmptyString +:+ s = s.
Proof. reflexivity. Qed.

Lemma append_empty_r (s : string) : s +:+ EmptyString = s.
Proof. induction s as [|c s IH]; [reflexivity|]. rewrite append_cons, IH. reflexivity. Qed.

Lemma prefix_app (old s : string) : String.prefix old (old +:+ s) = true.
Proof.
  induction old as [|c old IH].
  - rewrite append_empty_l. destruct s; reflexivity.
  - rewrite append_cons. cbn [String.prefix].
    destruct (Ascii.ascii_dec c c) as [_|Hne]; [exact IH|congruence].
Qed.

Lemma replace_from_skip (old new t s : string) :
  replace_from (String.length t) old new (t +:+ s) = replace_from 0 old new s.
Proof.
  induction t as [|c t IH]; [reflexivity|].
  rewrite append_cons. cbn [String.length replace_from]. exact IH.
Qed.

Lemma replace_occurrence (old new s : string) :
  old <> EmptyString ->
  replace old new (old +:+ s) = new +:+ replace old new s.
Proof.
  intros Hne. destruct old as [|c old]; [congruence|].
  unfold replace. rewrite append_cons. cbn [replace_from].
  rewrite <- append_cons, prefix_app. cbn [String.length].
  rewrite Nat.sub_1_r. cbn [Nat.pred].
  rewrite replace_from_skip. reflexivity.
Qed.

Lemma replace_first_occurrence (old new s1 s2 : string) :
  old <> EmptyString ->
  occurs_within old s1 (old +:+ s2) = false ->
  replace old new (s1 +:+ old +:+ s2) = s1 +:+ new +:+ replace old new s2.
Proof.
  intros Hne. induction s1 as [|c s1 IH]; intros Hocc.
  - rewrite !append_empty_l. apply replace_occurrence, Hne.
  - cbn [occurs_within] in Hocc. apply orb_false_iff in Hocc. destruct Hocc as [Hp Hocc].
    specialize (IH Hocc). unfold replace in *.
    rewrite !append_cons in *. cbn [replace_from].
    rewrite Hp, IH. reflexivity.
Qed.

Lemma replace_no_occurrence (old new s : string) :
  occurs_within old s EmptyString = false -> replace old new s = s.
Proof.
  induction s as [|c s IH]; intros Hocc; [reflexivity|].
  cbn [occurs_within] in Hocc. apply orb_false_iff in Hocc. destruct Hocc as [Hp Hocc].
  specialize (IH Hocc). unfold replace in *. cbn [replace_from].
  rewrite append_empty_r in Hp. rewrite Hp, IH. reflexivity.
Qed.

(** X1.  With [--ckpt auto] and a [--model_from] that ends in [.ckpt],
    with no earlier occurrence of [.ckpt], the checkpoint path is the
    model path with [_transfer_<dataset_to>] put before the extension;
    no other argument changes. *)
Theorem auto_ckpt_path (a : args) (base : string) :
  ckpt a = "auto" ->
  model_from a = base +:+ ".ckpt" ->
  occurs_within ".ckpt" base ".ckpt" = false ->
  resolve_ckpt a = with_ckpt (base +:+ "_transfer_" +:+ dataset_to a +:+ ".ckpt") a.
Proof.
  intros Hauto Hfrom Hocc. unfold resolve_ckpt. rewrite Hauto, Hfrom.
  change (String.eqb "auto" "auto") with true. cbv iota.
  pose proof (replace_first_occurrence ".ckpt" ("_transfer_" +:+ dataset_to a +:+ ".ckpt")
                base EmptyString) as H.
  rewrite append_empty_r in H. unfold replace at 2 in H. cbn [replace_from] in H.
  rewrite append_empty_r in H.
  rewrite H; [reflexivity|discriminate|exact Hocc].
Qed.

(** X2.  An explicit [--ckpt] is used as it is; with [--ckpt auto] and a
    [--model_from] in which [.ckpt] does not occur, nothing is replaced and
    the checkpoint path is the path of the source model itself. *)
Theorem ckpt_path_kept (a : args) :
  (ckpt a <> "auto" -> resolve_ckpt a = a) /\
  (ckpt a = "auto" -> occurs_within ".ckpt" (model_from a) "" = false ->
   resolve_ckpt a = with_ckpt (model_from a) a).
Proof.
  unfold resolve_ckpt. split.
  - intros Hne. destruct (String.eqb_spec (ckpt a) "auto") as [Heq|_]; [contradiction|].
    reflexivity.
  - intros -> Hocc. change (String.eqb "auto" "auto") with true. cbv iota.
    rewrite replace_no_occurrence by exact Hocc. reflexivity.
Qed.

Lemma before_first_split (sep : Ascii.ascii) (s : string) :
  exists rest,
    s = before_first sep s +:+ rest /\
    (rest = EmptyString \/ exists r, rest = String sep r) /\
    ~ In sep (list_ascii_of_string (before_first sep s)).
Proof.
  induction s as [|c s (rest & Hs & Hrest & Hnot)].
  - exists EmptyString. split; [reflexivity|]. split; [left; reflexivity|]. intros [].
  - cbn [before_first]. destruct (Ascii.eqb_spec c sep) as [->|Hne].
    + exists (String sep s). split; [reflexivity|]. split; [right; eauto|]. intros [].
    + exists rest. split; [rewrite append_cons, <- Hs; reflexivity|].
      split; [exact Hrest|]. cbn [list_ascii_of_string]. intros [Heq|Hin]; [congruence|].
      exact (Hnot Hin).
Qed.

(** X3.  The plot is saved beside the checkpoint under the checkpoint
    path cut at its first dot, plus [.png]: the stem has no dot and what
    is cut away is empty or starts with the dot.  A checkpoint path that
    starts with a dot gives the plot path [.png]. *)
Theorem plot_loc_stem (a : args) :
  (exists stem rest,
     ckpt a = stem +:+ rest /\
     plot_loc a = stem +:+ ".png" /\
     ~ In "."%char (list_ascii_of_string stem) /\
     (rest = EmptyString \/ exists r, rest = String "."%char r)) /\
  (forall r, ckpt a = String "."%char r -> plot_loc a = ".png").
Proof.
  split.
  - destruct (before_first_split "."%char (ckpt a)) as (rest & Hs & Hrest & Hnot).
    exists (before_first "."%char (ckpt a)), rest.
    split; [exact Hs|]. split; [reflexivity|]. split; [exact Hnot|exact Hrest].
  - intros r Hr. unfold plot_loc. rewrite Hr. reflexivity.
Qed.

(** ** Numbers: penalties *)

Lemma inject_nat_le (i m : nat) :
  i <= m -> (inject_Z (Z.of_nat i) <= inject_Z (Z.of_nat m))%Q.
Proof. intros H. rewrite <- Zle_Qle. lia. Qed.

Lemma inject_nat_pos (m : nat) : (0 < inject_Z (Z.of_nat (S m)))%Q.
Proof. unfold Qlt, inject_Z. cbn [Qnum Qden]. lia. Qed.

Lemma sum_squares_nonneg (t : list Q) : (0 <= sum_squares t)%Q.
Proof.
  unfold sum_squares. induction t as [|v t IH]; cbn [map Qsum foldr].
  - lra.
  - fold (Qsum (map (fun v => (v * v)%Q) t)) in *. nra.
Qed.

Lemma sum_squares_zero (t : list Q) :
  (sum_squares t == 0)%Q <-> Forall (fun v => (v == 0)%Q) t.
Proof.
  induction t as [|v t IH].
  - split; [constructor|reflexivity].
  - pose proof (sum_squares_nonneg t) as Hn.
    unfold sum_squares in *. cbn [map Qsum foldr].
    fold (Qsum (map (fun v => (v * v)%Q) t)) in *.
    split.
    + intros H. assert (Hv : (v * v == 0)%Q) by nra.
      constructor; [|apply IH; nra].
      apply Qmult_integral in Hv. destruct Hv; assumption.
    + intros H. apply Forall_cons in H. destruct H as [Hv Ht]. apply IH in Ht. nra.
Qed.

Section MoreProperties.
Context {E : Externals}.

(** ** The penalties, when the buffer holds tensors *)

Lemma rmap_ok {A B} (f : A -> result B) (P : B -> Prop) (l : list A) (l' : list B) :
  (forall x y, f x = Ok y -> P y) ->
  rmap f l = Ok l' -> length l' = length l /\ Forall P l'.
Proof.
  intros Hf. revert l'. induction l as [|x l IH]; intros l' H; cbn [rmap] in H.
  - injection H as <-. split; [reflexivity|constructor].
  - destruct (f x) as [y|e] eqn:Hy; [|discriminate]. cbn [rbind] in H.
    destruct (rmap f l) as [ys|e]; [|discriminate]. cbn [rbind] in H.
    injection H as <-. destruct (IH ys eq_refl) as [Hlen Hall].
    split; [cbn [length]; congruence|]. constructor; [eapply Hf, Hy|exact Hall].
Qed.

Lemma layer_penalty_nonneg (bn : BatchNorm) (o v : pyobj) :
  layer_penalty bn o = Ok v -> exists q, v = PyScalar q /\ (0 <= q)%Q.
Proof.
  unfold layer_penalty. destruct (py_mean023 o) as [mu|e]; [|discriminate]. cbn [rbind].
  destruct (tensor_sub (running_mean bn) mu) as [d|e]; [|discriminate]. cbn [rbind].
  intros H. injection H as <-. eexists. split; [reflexivity|apply sum_squares_nonneg].
Qed.

(** X5.  Whenever [get_bn_loss] returns, it leaves the state as it is
    and returns a list with one scalar for each pair of
    [zip(bn_layers, layer_activations)], none of them negative. *)
Theorem penalties_nonnegative (st st' : session * world) (v : pyobj) :
  get_bn_loss st = (Ok v, st') ->
  st' = st /\
  exists l, v = PyList l /\
    length l = min (length (get_bn_layers (model st.1))) (length (layer_activations st.1)) /\
    Forall (fun o => exists q, o = PyScalar q /\ (0 <= q)%Q) l.
Proof.
  unfold get_bn_loss, mbind, M_bind, get, lift. cbn [fst snd].
  destruct (rmap _ _) as [l|e] eqn:Hl; cbn [rbind]; intros H; [|discriminate].
  injection H as <- <-. split; [reflexivity|]. exists l. split; [reflexivity|].
  eapply rmap_ok in Hl; [|intros p y Hy; exact (layer_penalty_nonneg _ _ _ Hy)].
  destruct Hl as [Hlen Hall]. split; [|exact Hall].
  rewrite Hlen. apply length_zip.
Qed.

Lemma differences_zero (u v : list Q) :
  length u = length v ->
  Forall (fun d => (d == 0)%Q) (zip_with Qminus u v) <-> Forall2 Qeq u v.
Proof.
  revert v. induction u as [|x u IH]; intros [|y v] Hlen; try discriminate.
  - split; constructor.
  - cbn [zip_with]. rewrite Forall_cons, Forall2_cons, IH by (cbn in Hlen; lia).
    split; intros [Hx Hrest]; (split; [lra|exact Hrest]).
Qed.

(** X6.  On a captured tensor whose channels match the layer, the
    penalty of the layer is zero exactly when the running mean equals the
    mean of the input in every channel. *)
Theorem penalty_zero_iff_means_equal (bn : BatchNorm) (t : tensor4) :
  length (running_mean bn) = length (mean023 t) ->
  exists q, layer_penalty bn (PyTensor t) = Ok (PyScalar q) /\
            ((q == 0)%Q <-> Forall2 Qeq (running_mean bn) (mean023 t)).
Proof.
  intros Hlen. eexists. split; [apply layer_penalty_tensor, Hlen|].
  rewrite sum_squares_zero. apply differences_zero, Hlen.
Qed.

(** ** The capture buffer over a forward pass *)

Lemma captured_length (calls : list (nat * tensor4)) (buf : list pyobj) :
  length (captured calls buf) = length buf.
Proof.
  revert buf. induction calls as [|c calls IH]; intros buf; [reflexivity|].
  cbn [captured foldl]. fold (captured calls (<[c.1 := PyTuple [PyTensor c.2]]> buf)).
  rewrite IH. apply length_insert.
Qed.

Lemma captured_untouched (calls : list (nat * tensor4)) (buf : list pyobj) (i : nat) :
  i ∉ calls.*1 -> captured calls buf !! i = buf !! i.
Proof.
  revert buf. induction calls as [|c calls IH]; intros buf Hi; [reflexivity|].
  cbn [captured foldl]. fold (captured calls (<[c.1 := PyTuple [PyTensor c.2]]> buf)).
  rewrite fmap_cons, not_elem_of_cons in Hi. destruct Hi as [Hne Hi].
  rewrite IH by exact Hi. apply list_lookup_insert_ne. congruence.
Qed.

Lemma captured_most_recent (l1 l2 : list (nat * tensor4)) (i : nat) (t : tensor4)
    (buf : list pyobj) :
  i < length buf -> i ∉ l2.*1 ->
  captured (l1 ++ (i, t) :: l2) buf !! i = Some (PyTuple [PyTensor t]).
Proof.
  intros Hi Hl2. unfold captured. rewrite foldl_app. cbn [foldl fst snd].
  fold (captured l1 buf).
  fold (captured l2 (<[i := PyTuple [PyTensor t]]> (captured l1 buf))).
  rewrite captured_untouched by exact Hl2.
  apply list_lookup_insert_eq. rewrite captured_length. exact Hi.
Qed.

Lemma hooks_in_range (calls : list (nat * tensor4)) (s : session) (w : world) :
  Forall (fun c => c.1 < length (layer_activations s)) calls ->
  for_each calls (fun c => layer_hook_wrapper c.1 (PyTuple [PyTensor c.2])) (s, w)
  = (Ok tt, (with_layer_activations (captured calls (layer_activations s)) s, w)).
Proof.
  revert s. induction calls as [|c calls IH]; intros s Hall.
  - destruct s. reflexivity.
  - apply Forall_cons in Hall. destruct Hall as [Hc Hall].
    cbn [for_each]. unfold mbind, M_bind at 1.
    destruct (hook_stores_inputs c.1 (PyTuple [PyTensor c.2]) s w Hc) as [-> _].
    rewrite IH.
    + cbn [captured foldl layer_activations with_layer_activations]. reflexivity.
    + cbn [layer_activations with_layer_activations]. rewrite length_insert. exact Hall.
Qed.

Lemma hooks_out_of_range (calls : list (nat * tensor4)) (s : session) (w : world) :
  Exists (fun c => length (layer_activations s) <= c.1) calls ->
  (for_each calls (fun c => layer_hook_wrapper c.1 (PyTuple [PyTensor c.2])) (s, w)).1
  = Raise IndexError.
Proof.
  revert s. induction calls as [|c calls IH]; intros s Hex.
  - apply Exists_nil in Hex. contradiction.
  - cbn [for_each]. unfold mbind, M_bind at 1.
    unfold layer_hook_wrapper at 1. unfold mbind, M_bind at 1, get at 1. cbn [fst snd].
    destruct (decide (c.1 < length (layer_activations s))) as [Hc|Hc].
    + unfold modify at 1. cbn [fst snd]. apply IH.
      cbn [layer_activations with_layer_activations]. rewrite length_insert.
      apply Exists_cons in Hex. destruct Hex as [Hex|Hex]; [lia|exact Hex].
    + reflexivity.
Qed.

(** X7.  When every hook of a forward pass addresses a slot of the
    buffer, [model(x)] returns the logits, updates the module, emits one
    forward pass and leaves in each slot the argument tuple of the most
    recent call of its layer; slots of layers that did not run keep their
    content. *)
Theorem forward_fills_buffer (x : tensor4) (s : session) (w : world) :
  let calls := hook_calls (model s) x in
  let buf := captured calls (layer_activations s) in
  Forall (fun c => c.1 < length (layer_activations s)) calls ->
  call_model x (s, w)
  = (Ok (model_call (model s) x).2,
     (with_model (model_call (model s) x).1 (with_layer_activations buf s),
      emit_w Forward w)) /\
  (forall l1 l2 i t, calls = (l1 ++ (i, t) :: l2)%list -> i ∉ l2.*1 ->
                     buf !! i = Some (PyTuple [PyTensor t])) /\
  (forall i, i ∉ calls.*1 -> buf !! i = layer_activations s !! i).
Proof.
  cbn zeta. intros Hall. split; [|split].
  - unfold call_model. unfold mbind at 1, M_bind at 1, get at 1. cbn [fst snd].
    unfold mbind at 1, M_bind at 1, emit at 1. cbn [fst snd].
    unfold mbind at 1, M_bind at 1. rewrite hooks_in_range by exact Hall.
    reflexivity.
  - intros l1 l2 i t Hcalls Hi. rewrite Hcalls. apply captured_most_recent; [|exact Hi].
    rewrite Hcalls in Hall. apply Forall_app in Hall. destruct Hall as [_ Hall].
    apply Forall_cons in Hall. exact (proj1 Hall).
  - intros i Hi. apply captured_untouched, Hi.
Qed.

Lemma hooks_length (calls : list (nat * tensor4)) (st : session * world) :
  length (layer_activations
            (for_each calls (fun c => layer_hook_wrapper c.1 (PyTuple [PyTensor c.2])) st).2.1)
  = length (layer_activations st.1).
Proof.
  revert st. induction calls as [|c calls IH]; intros st; [reflexivity|].
  cbn [for_each]. unfold mbind, M_bind at 1.
  unfold layer_hook_wrapper at 1. unfold mbind, M_bind at 1, get at 1. cbn [fst snd].
  destruct (decide (c.1 < length (layer_activations st.1))).
  - unfold modify at 1. cbn [fst snd]. rewrite IH.
    cbn [fst layer_activations with_layer_activations]. apply length_insert.
  - reflexivity.
Qed.

(** X8.  A forward pass never changes the number of slots of the capture
    buffer, whatever its outcome; a hook that addresses a slot outside the
    buffer ends the forward pass with [IndexError]. *)
Theorem buffer_slots_fixed (x : tensor4) (st : session * world) :
  length (layer_activations (call_model x st).2.1) = length (layer_activations st.1) /\
  (Exists (fun c => length (layer_activations st.1) <= c.1) (hook_calls (model st.1) x) ->
   (call_model x st).1 = Raise IndexError).
Proof.
  pose proof (hooks_length (hook_calls (model st.1) x) (st.1, emit_w Forward st.2)) as Hlen.
  split.
  - unfold call_model. unfold mbind at 1, M_bind at 1, get at 1. cbn [fst snd].
    unfold mbind at 1, M_bind at 1, emit at 1. cbn [fst snd].
    unfold mbind at 1, M_bind at 1.
    destruct (for_each _ _ _) as [[u|e] st2]; cbn [fst snd] in *; [|exact Hlen].
    unfold mbind, M_bind, modify, mret, M_ret. cbn [fst snd]. exact Hlen.
  - intros Hex.
    pose proof (hooks_out_of_range _ st.1 (emit_w Forward st.2) Hex) as Hraise.
    unfold call_model. unfold mbind at 1, M_bind at 1, get at 1. cbn [fst snd].
    unfold mbind at 1, M_bind at 1, emit at 1. cbn [fst snd].
    unfold mbind at 1, M_bind at 1.
    destruct (for_each _ _ _) as [[u|e] st2]; cbn [fst snd] in *; [discriminate|].
    injection Hraise as ->. reflexivity.
Qed.

End MoreProperties.

Section RunProperties.
Context {E : Externals}.

(** ** What a training step does before it raises *)

Lemma hooks_world (calls : list (nat * tensor4)) (st st' : session * world) (r : result unit) :
  for_each calls (fun c => layer_hook_wrapper c.1 (PyTuple [PyTensor c.2])) st = (r, st') ->
  st'.2 = st.2 /\ distortion st'.1 = distortion st.1.
Proof.
  revert st. induction calls as [|c calls IH]; intros st H.
  - injection H as _ <-. split; reflexivity.
  - cbn [for_each] in H. unfold mbind, M_bind at 1 in H.
    unfold layer_hook_wrapper at 1 in H. unfold mbind, M_bind at 1, get at 1 in H.
    cbn [fst snd] in H.
    destruct (decide (c.1 < length (layer_activations st.1))).
    + unfold modify at 1 in H. cbn [fst snd] in H. apply IH in H. exact H.
    + injection H as _ <-. split; reflexivity.
Qed.

Lemma call_model_world (x : tensor4) (st st' : session * world) (r : result (list (list Q))) :
  call_model x st = (r, st') ->
  st'.2 = emit_w Forward st.2 /\ distortion st'.1 = distortion st.1.
Proof.
  unfold call_model. unfold mbind at 1, M_bind at 1, get at 1. cbn [fst snd].
  unfold mbind at 1, M_bind at 1, emit at 1. cbn [fst snd].
  unfold mbind at 1, M_bind at 1.
  destruct (for_each _ _ _) as [[u|e] st2] eqn:Hh; apply hooks_world in Hh;
    cbn [fst snd] in Hh.
  - unfold mbind, M_bind, modify, mret, M_ret. cbn [fst snd].
    intros H. injection H as _ <-. exact Hh.
  - intros H. injection H as _ <-. exact Hh.
Qed.

Lemma train_step_outcome (a : args) (epoch step : nat) (b : Batch) (st : session * world) :
  exists e s',
    train_step a epoch step b st
    = (Raise e, (s', emit_w Forward (emit_w (ToDevice "y" (device a))
                                       (emit_w (ToDevice "x" (device a)) st.2)))) /\
    distortion s' =
      (if distortion_test a
       then Some (default (DistortionModelConv (shape b.1) (1 # 10)) (distortion st.1))
       else distortion st.1).
Proof.
  unfold train_step.
  unfold mbind at 1, M_bind at 1, emit at 1. cbn [fst snd].
  unfold mbind at 1, M_bind at 1, emit at 1. cbn [fst snd].
  set (w1 := emit_w _ (emit_w _ st.2)).
  unfold mbind at 1, M_bind at 1.
  assert (Hx : exists x s1,
    distortion s1 =
      (if distortion_test a
       then Some (default (DistortionModelConv (shape b.1) (1 # 10)) (distortion st.1))
       else distortion st.1) /\
    (if distortion_test a
     then s ← get;
          d ← match distortion s with
              | None =>
                  modify (with_distortion (Some (DistortionModelConv (shape b.1) (1 # 10))));;
                  mret (DistortionModelConv (shape b.1) (1 # 10))
              | Some d => mret d
              end;
          mret (distortion_call d b.1)
     else mret b.1) (st.1, w1) = (Ok x, (s1, w1))).
  { destruct (distortion_test a).
    - unfold mbind, M_bind, get, modify, mret, M_ret. cbn [fst snd].
      destruct (distortion st.1) as [d|] eqn:Hd; cbn [fst snd];
        eexists _, _; (split; [|reflexivity]); cbn [distortion with_distortion default];
        [exact Hd|reflexivity].
    - eexists _, _. split; [|reflexivity]. reflexivity. }
  destruct Hx as (x & s1 & Hd & ->).
  unfold mbind at 1, M_bind at 1.
  destruct (call_model x (s1, w1)) as [[logits|e] [s2 w2]] eqn:Hcall;
    apply call_model_world in Hcall; cbn [fst snd] in Hcall;
    destruct Hcall as [Hw Hdist]; subst w2;
    [|eexists _, _; split; [reflexivity|congruence]].
  unfold mbind at 1, M_bind at 1.
  destruct (get_bn_loss_list (s2, emit_w Forward w1)) as [Hst [[l Hl]|[e He]]];
    destruct (get_bn_loss (s2, emit_w Forward w1)) as [r st3]; cbn [fst snd] in *;
    subst r st3; [|eexists _, _; split; [reflexivity|congruence]].
  unfold mbind at 1, M_bind at 1.
  destruct (unsupervised a).
  - unfold mbind at 1, M_bind at 1, lift at 1. cbn [py_item fst snd].
    eexists _, _; split; [reflexivity|congruence].
  - unfold mbind at 1, M_bind at 1, lift at 1. cbn [py_add_scalar fst snd].
    eexists _, _; split; [reflexivity|congruence].
Qed.

(** X9.  Every training step places the two halves of the batch on the
    device, runs exactly one forward pass and ends in an exception: its
    output is these three events and nothing else, so there is no
    optimizer step and no progress line, and no file is written. *)
Theorem training_step_trace (a : args) (epoch step : nat) (b : Batch) (st : session * world) :
  (exists e, (train_step a epoch step b st).1 = Raise e) /\
  out (train_step a epoch step b st).2.2
    = (out st.2 ++ [ToDevice "x" (device a); ToDevice "y" (device a); Forward])%list /\
  disk (train_step a epoch step b st).2.2 = disk st.2.
Proof.
  destruct (train_step_outcome a epoch step b st) as (e & s' & -> & _).
  cbn [fst snd emit_w out disk]. split; [eauto|]. split; [|reflexivity].
  rewrite <- !app_assoc. reflexivity.
Qed.

(** X10.  With [--distortion_test] the distortion is built from the
    shape of the batch of the first step and kept: a step that finds one
    leaves it in place; without the flag a step never creates one. *)
Theorem distortion_built_once (a : args) (epoch step : nat) (b : Batch) (st : session * world) :
  distortion (train_step a epoch step b st).2.1 =
    (if distortion_test a
     then Some (default (DistortionModelConv (shape b.1) (1 # 10)) (distortion st.1))
     else distortion st.1).
Proof.
  destruct (train_step_outcome a epoch step b st) as (e & s' & -> & Hd). exact Hd.
Qed.

End RunProperties.

Section WholeRuns.
Context {E : Externals}.

(** ** The shape of the loop and of the tail of the script *)

Lemma run_epoch_raise (a : args) (epoch : nat) (st : session * world) :
  0 < loader_len (train_loader a) ->
  exists e st', run_epoch a epoch st = (Raise e, st') /\ agree st st' /\
    out st'.2 = (out st.2 ++ [ToDevice "x" (device a); ToDevice "y" (device a); Forward])%list.
Proof.
  intros Hn. unfold run_epoch, loader_pass.
  destruct (loader_len (train_loader a)) as [|n]; [lia|].
  unfold mbind at 1, M_bind at 1, modify at 1. cbn [fst snd].
  unfold mbind at 1, M_bind at 1.
  cbn [seq map imap for_each]. unfold mbind at 1, M_bind at 1.
  set (st0 := (with_model (model_train (model st.1)) st.1, st.2)).
  destruct (train_step_raises a epoch (epoch * S n + 0, loader_batch (train_loader a) epoch 0).1
              (epoch * S n + 0, loader_batch (train_loader a) epoch 0).2 st0)
    as (e & st' & Heq & Hag).
  destruct (train_step_outcome a epoch
              (epoch * S n + 0, loader_batch (train_loader a) epoch 0).1
              (epoch * S n + 0, loader_batch (train_loader a) epoch 0).2 st0)
    as (e' & s' & Heq' & _).
  rewrite Heq in Heq' |- *. injection Heq' as _ Hst'.
  exists e, st'. split; [reflexivity|]. split.
  - eapply agree_trans; [|exact Hag]. repeat split.
  - rewrite Hst'. cbn [fst snd emit_w out]. rewrite <- !app_assoc. reflexivity.
Qed.

Lemma epochs_raise (a : args) (epochs : list nat) (st : session * world) :
  0 < loader_len (train_loader a) -> epochs <> [] ->
  exists e st', for_each epochs (run_epoch a) st = (Raise e, st') /\ agree st st' /\
    out st'.2 = (out st.2 ++ [ToDevice "x" (device a); ToDevice "y" (device a); Forward])%list.
Proof.
  intros Hn Hne. destruct epochs as [|ep epochs]; [congruence|].
  cbn [for_each]. unfold mbind, M_bind.
  destruct (run_epoch_raise a ep st Hn) as (e & st' & -> & H). eauto.
Qed.

Lemma train_loop_eq (a : args) (st : session * world) :
  train_loop a st = for_each (seq (init_epoch st.1) (Z.to_nat (num_epochs a))) (run_epoch a) st.
Proof. reflexivity. Qed.

Lemma train_and_plot_eq (a : args) (st : session * world) :
  train_and_plot a st =
  if negb (bool_decide (is_Some (disk st.2 !! ckpt a))) || resume_training a then
    match train_loop a (st.1, emit_w (Print MsgTraining) st.2) with
    | (Ok _, st1) =>
        if save_best a then
          match report_best a st1 with
          | (Ok _, st2) => final_plot st2
          | (Raise e, st2) => (Raise e, st2)
          end
        else final_plot st1
    | (Raise e, st1) => (Raise e, st1)
    end
  else final_plot st.
Proof.
  unfold train_and_plot, final_plot.
  unfold mbind at 1, M_bind at 1, read_file at 1. cbn [fst snd].
  destruct (negb _ || _).
  - unfold mbind at 1, M_bind at 1. unfold mbind at 1, M_bind at 1, emit at 1.
    cbn [fst snd]. unfold mbind at 1, M_bind at 1.
    destruct (train_loop a _) as [[u|e] st1]; [|reflexivity].
    destruct (save_best a).
    + destruct (report_best a st1) as [[v|e] st2]; reflexivity.
    + reflexivity.
  - destruct st. reflexivity.
Qed.

(** ** Runs with batches: nothing is ever saved *)

Lemma epochs_disk (a : args) (epochs : list nat) (st : session * world) :
  0 < loader_len (train_loader a) ->
  disk (for_each epochs (run_epoch a) st).2.2 = disk st.2.
Proof.
  intros Hn. destruct epochs as [|ep epochs]; [reflexivity|].
  destruct (epochs_raise a (ep :: epochs) st Hn) as (e & st' & -> & Hag & _);
    [discriminate|].
  exact (proj2 (proj2 (proj2 (proj2 (proj2 Hag))))).
Qed.

Lemma train_and_plot_disk (a : args) (st : session * world) :
  0 < loader_len (train_loader a) ->
  disk (train_and_plot a st).2.2 = disk st.2.
Proof.
  intros Hn. rewrite train_and_plot_eq. unfold final_plot.
  destruct (negb _ || _); [|reflexivity].
  pose proof (epochs_disk a (seq (init_epoch st.1) (Z.to_nat (num_epochs a)))
                (st.1, emit_w (Print MsgTraining) st.2) Hn) as Hd.
  rewrite train_loop_eq. cbn [fst] in *.
  destruct (for_each _ _ _) as [[u|e] st1]; cbn [fst snd] in *; [|exact Hd].
  destruct (save_best a); [|exact Hd].
  destruct (report_best_raises a st1) as (e & w' & -> & Hw & _). cbn [fst snd].
  rewrite Hw, Hd. reflexivity.
Qed.

Lemma setup_disk (a : args) (w : world) : disk (setup a w).2 = disk w.
Proof.
  unfold setup, fresh_start.
  destruct (disk w !! ckpt a); [destruct (negb (reset a))|];
    try reflexivity; destruct (select_network a); reflexivity.
Qed.

(** X11.  When the training loader has at least one batch, no run
    writes a checkpoint: the files on disk after the run are those before
    it, whatever the arguments; and a run with [--resume_training] and a
    positive [--num_epochs] ends in an exception. *)
Theorem batches_prevent_saving (a : args) (w : world) :
  0 < loader_len (train_loader (resolve_ckpt a)) ->
  disk (main a w).2 = disk w /\
  (resume_training a = true -> (0 < num_epochs a)%Z -> exists e, (main a w).1 = Raise e).
Proof.
  intros Hn. unfold main. set (a' := resolve_ckpt a) in *.
  assert (Hres : resume_training a' = resume_training a /\ num_epochs a' = num_epochs a).
  { unfold a', resolve_ckpt. destruct (String.eqb (ckpt a) "auto"); split; reflexivity. }
  destruct Hres as [Hres Hnum]. clearbody a'.
  set (w0 := emit_w (Print (MsgArgs a')) w).
  unfold script_body. pose proof (setup_disk a' w0) as Hsd.
  destruct (setup a' w0) as [[s|e] w1]; cbn [fst snd] in *; [|split; [exact Hsd|eauto]].
  pose proof (train_and_plot_disk a' (s, w1) Hn) as Htd.
  split.
  - destruct (train_and_plot a' (s, w1)) as [[u|e] [s2 w2]]; cbn [fst snd] in *;
      rewrite Htd, Hsd; reflexivity.
  - intros Hr Hpos. rewrite train_and_plot_eq. rewrite Hres, Hr, orb_true_r.
    rewrite train_loop_eq.
    match goal with |- context [for_each ?l ?f ?st] =>
      destruct (epochs_raise a' l st Hn) as (e & [s2 w2] & Heq & _);
        [|rewrite Heq; eauto]
    end.
    rewrite Hnum. destruct (Z.to_nat (num_epochs a)) eqn:Hz; [lia|discriminate].
Qed.

(** X12.  For the [--network] values that the parser accepts, a run
    that returns has resumed from an existing checkpoint without
    [--reset]; and if it had [--resume_training], it had no [--save_best]
    and its loop made no step: a non-positive [--num_epochs] or a loader
    without batches. *)
Theorem returning_runs (a : args) (w : world) (s' : session) :
  In (network a) network_choices ->
  (main a w).1 = Ok s' ->
  is_Some (disk w !! ckpt (resolve_ckpt a)) /\
  reset a = false /\
  (resume_training a = true ->
   save_best a = false /\
   ((num_epochs a <= 0)%Z \/ loader_len (train_loader (resolve_ckpt a)) = 0)).
Proof.
  intros Hnet. unfold main. set (a' := resolve_ckpt a) in *.
  assert (Hf : network a' = network a /\ reset a' = reset a /\
               resume_training a' = resume_training a /\ save_best a' = save_best a /\
               num_epochs a' = num_epochs a).
  { unfold a', resolve_ckpt. destruct (String.eqb (ckpt a) "auto"); repeat split. }
  destruct Hf as (Hn & Hrs & Hres & Hsb & Hnum). clearbody a'.
  assert (Hsel : select_network a' = None).
  { apply network_choices_unsupported in Hnet. destruct Hnet.
    apply select_network_other; congruence. }
  unfold script_body, setup, fresh_start. rewrite Hsel. cbn [emit_w disk].
  destruct (disk w !! ckpt a') as [c|];
    [|cbv beta iota; cbn [fst]; intros HH; discriminate HH].
  rewrite Hrs. destruct (reset a);
    [cbv beta iota; cbn [negb fst]; intros HH; discriminate HH|].
  cbn [negb]. cbv beta iota.
  rewrite train_and_plot_eq, Hres, Hsb. cbn [fst snd emit_w disk].
  intros H. split; [eauto|]. split; [reflexivity|]. intros Hr.
  rewrite Hr, orb_true_r in H. rewrite train_loop_eq in H. cbn [fst] in H.
  match type of H with context [for_each ?l ?f ?st] =>
    destruct (for_each l f st) as [[u|e] [s1 w1]] eqn:Hloop;
      [|cbv beta iota in H; cbn [fst] in H; discriminate H]
  end.
  split.
  - destruct (save_best a); [|reflexivity].
    destruct (report_best_raises a' (s1, w1)) as (e & w' & Hrep & _).
    rewrite Hrep in H. cbv beta iota in H. cbn [fst] in H. discriminate H.
  - destruct (Nat.eq_dec (loader_len (train_loader a')) 0) as [Hz|Hnz]; [right; exact Hz|].
    left. destruct (Z.to_nat (num_epochs a')) eqn:Hk; [lia|].
    match type of Hloop with for_each ?l ?f ?st = _ =>
      destruct (epochs_raise a' l st) as (e & st2 & Heq & _);
        [lia|discriminate|rewrite Heq in Hloop; discriminate Hloop]
    end.
Qed.

(** ** What no run ever does *)

Lemma quiet_refl (w : world) : extends_quietly w w.
Proof. exists []. split; [rewrite app_nil_r; reflexivity|reflexivity]. Qed.

Lemma quiet_trans (w1 w2 w3 : world) :
  extends_quietly w1 w2 -> extends_quietly w2 w3 -> extends_quietly w1 w3.
Proof.
  intros (e1 & H1 & Q1) (e2 & H2 & Q2). exists (e1 ++ e2)%list.
  split; [rewrite H2, H1, app_assoc; reflexivity|].
  rewrite forallb_app, Q1, Q2. reflexivity.
Qed.

Lemma quiet_events (w w' : world) (evs : list event) :
  out w' = (out w ++ evs)%list ->
  forallb (fun e => negb (is_unreached_event e)) evs = true ->
  extends_quietly w w'.
Proof. intros H Q. exists evs. split; assumption. Qed.

Lemma epoch_end_quiet (a : args) (epoch : nat) (st : session * world) :
  extends_quietly st.2 (epoch_end a epoch st).2.2.
Proof.
  destruct st as [s w]. rewrite epoch_end_eq.
  destruct (negb (save_best a) || Qltb _ _); [|apply quiet_refl].
  destruct (get_bn_layers _); cbn [fst snd];
    (eapply quiet_events; [reflexivity|reflexivity]).
Qed.

Lemma run_epoch_quiet (a : args) (epoch : nat) (st : session * world) :
  extends_quietly st.2 (run_epoch a epoch st).2.2.
Proof.
  destruct (run_epoch_cases a epoch st) as [[_ ->]|[Hn _]].
  - exact (epoch_end_quiet a epoch (with_model (model_train (model st.1)) st.1, st.2)).
  - destruct (run_epoch_raise a epoch st Hn) as (e & st' & -> & _ & Hout).
    eapply quiet_events; [exact Hout|reflexivity].
Qed.

Lemma epochs_quiet (a : args) (epochs : list nat) (st : session * world) :
  extends_quietly st.2 (for_each epochs (run_epoch a) st).2.2.
Proof.
  revert st. induction epochs as [|ep epochs IH]; intros st; [apply quiet_refl|].
  cbn [for_each]. unfold mbind, M_bind.
  pose proof (run_epoch_quiet a ep st) as H1.
  destruct (run_epoch a ep st) as [[u|e] st1]; cbn [fst snd] in *; [|exact H1].
  eapply quiet_trans; [exact H1|apply IH].
Qed.

Lemma train_and_plot_quiet (a : args) (st : session * world) :
  extends_quietly st.2 (train_and_plot a st).2.2.
Proof.
  rewrite train_and_plot_eq. unfold final_plot.
  destruct (negb _ || _);
    [|cbn [fst snd]; eapply quiet_events; [reflexivity|reflexivity]].
  rewrite train_loop_eq.
  pose proof (epochs_quiet a (seq (init_epoch st.1) (Z.to_nat (num_epochs a)))
                (st.1, emit_w (Print MsgTraining) st.2)) as Hloop.
  cbn [fst snd] in Hloop.
  assert (H0 : extends_quietly st.2 (emit_w (Print MsgTraining) st.2))
    by (eapply quiet_events; [reflexivity|reflexivity]).
  cbn [fst].
  destruct (for_each _ _ _) as [[u|e] st1]; cbn [fst snd] in *;
    [|eapply quiet_trans; eassumption].
  assert (H1 : extends_quietly st.2 st1.2) by (eapply quiet_trans; eassumption).
  destruct (save_best a).
  - destruct (report_best_raises a st1) as (e & w' & -> & _ & [(_ & _ & Ho)|(_ & _ & Ho)]);
      cbn [fst snd]; (eapply quiet_trans; [exact H1|]).
    + apply (quiet_events _ _ []); [rewrite app_nil_r; exact Ho|reflexivity].
    + eapply quiet_events; [exact Ho|reflexivity].
  - cbn [fst snd]. eapply quiet_trans; [exact H1|].
    eapply quiet_events; [reflexivity|reflexivity].
Qed.

Lemma setup_quiet (a : args) (w : world) : extends_quietly w (setup a w).2.
Proof.
  unfold setup, fresh_start.
  destruct (disk w !! ckpt a); [destruct (negb (reset a))|];
    try (destruct (select_network a)); cbn [fst snd];
    try apply quiet_refl;
    (eapply quiet_events; [cbn [emit_w out]; rewrite <- ?app_assoc; reflexivity|reflexivity]).
Qed.

(** X13.  No run, with any arguments and any implementation of the
    collaborators, ever performs an optimizer step, prints a progress line
    or prints the report of the best checkpoint: the module is never
    updated by training. *)
Theorem no_run_reaches_the_optimizer (a : args) (w : world) :
  exists evs,
    out (main a w).2 = (out w ++ evs)%list /\
    forallb (fun e => negb (is_unreached_event e)) evs = true.
Proof.
  change (extends_quietly w (main a w).2).
  unfold main. set (a' := resolve_ckpt a). clearbody a'.
  eapply quiet_trans with (w2 := emit_w (Print (MsgArgs a')) w);
    [eapply quiet_events; [reflexivity|reflexivity]|].
  unfold script_body.
  pose proof (setup_quiet a' (emit_w (Print (MsgArgs a')) w)) as Hs.
  destruct (setup a' _) as [[s|e] w1]; cbn [fst snd] in *; [|exact Hs].
  pose proof (train_and_plot_quiet a' (s, w1)) as Ht.
  destruct (train_and_plot a' (s, w1)) as [[u|e] [s2 w2]]; cbn [fst snd] in *;
    eapply quiet_trans; eassumption.
Qed.

(** ** The log and the checkpoint over the loop *)

Lemma run_epoch_series (a : args) (epoch : nat) (st : session * world) (m : string) :
  series (logs st.1) m `prefix_of` series (logs (run_epoch a epoch st).2.1) m.
Proof.
  destruct (run_epoch_cases a epoch st) as [[_ ->]|(_ & e & st' & -> & Hag)].
  - rewrite (epoch_end_logs a epoch (with_model (model_train (model st.1)) st.1) st.2).
    rewrite series_log_extend. cbn [logs with_model].
    destruct (decide ("val_acc" = m)) as [<-|_]; [apply prefix_app_r|]; reflexivity.
  - cbn [fst snd]. destruct Hag as (_ & _ & -> & _). reflexivity.
Qed.

(** X14.  The metrics log is append-only over the loop: whatever the
    outcome of a sequence of epochs, every series it held before is a
    prefix of the series it holds afterwards. *)
Theorem log_is_append_only (a : args) (epochs : list nat) (st : session * world) (m : string) :
  series (logs st.1) m `prefix_of` series (logs (for_each epochs (run_epoch a) st).2.1) m.
Proof.
  revert st. induction epochs as [|ep epochs IH]; intros st; [reflexivity|].
  cbn [for_each]. unfold mbind, M_bind.
  pose proof (run_epoch_series a ep st m) as H1.
  destruct (run_epoch a ep st) as [[u|e] st1]; cbn [fst snd] in *; [|exact H1].
  etrans; [exact H1|apply IH].
Qed.

(** X17.  A start-up on an existing checkpoint without [--reset] whose
    run makes no epoch (no [--resume_training], or a non-positive
    [--num_epochs] without [--save_best]) returns the restored session,
    leaves the files as they are and ends by plotting the restored log. *)
Theorem rerun_restores_checkpoint (a : args) (w : world) (c : checkpoint) :
  disk w !! ckpt (resolve_ckpt a) = Some c ->
  reset a = false ->
  resume_training a = false \/ ((num_epochs a <= 0)%Z /\ save_best a = false) ->
  (main a w).1 =
    Ok (start_session (resolve_ckpt a) (ck_model c) (ck_optimizer c) (ck_epoch c)
                      (ck_logs c) (ck_acc c)) /\
  disk (main a w).2 = disk w /\
  last (out (main a w).2) = Some (Plot (ck_logs c) None 50 None).
Proof.
  intros Hc Hr Hcase. unfold main. set (a' := resolve_ckpt a) in *.
  assert (Hf : reset a' = reset a /\ resume_training a' = resume_training a /\
               save_best a' = save_best a /\ num_epochs a' = num_epochs a).
  { unfold a', resolve_ckpt. destruct (String.eqb (ckpt a) "auto"); repeat split. }
  destruct Hf as (Hrs & Hres & Hsb & Hnum). clearbody a'.
  unfold script_body, setup. cbn [emit_w disk]. rewrite Hc, Hrs, Hr. cbn [negb].
  rewrite train_and_plot_eq. cbn [fst snd emit_w disk]. rewrite Hc.
  change (bool_decide (is_Some (Some c))) with true. cbn [negb orb].
  rewrite Hres. destruct Hcase as [-> | [Hle Hsave]].
  - unfold final_plot. cbn [fst snd emit_w out disk logs start_session].
    split; [reflexivity|]. split; [reflexivity|]. apply last_snoc.
  - assert (Hz : Z.to_nat (num_epochs a') = 0) by lia.
    destruct (resume_training a).
    + rewrite train_loop_eq, Hz, Hsb, Hsave. cbn [seq for_each].
      unfold final_plot, mret, M_ret. cbn [fst snd emit_w out disk logs start_session].
      split; [reflexivity|]. split; [reflexivity|]. apply last_snoc.
    + unfold final_plot. cbn [fst snd emit_w out disk logs start_session].
      split; [reflexivity|]. split; [reflexivity|]. apply last_snoc.
Qed.

(** ** Step numbers *)

(** X18.  The steps of epoch [epoch] are numbered from
    [epoch * len(train_loader)] on: the [i]-th carries the [i]-th batch of
    the pass, its number modulo the loader length is [i] (the position
    that the progress line prints) and its quotient is the epoch; an epoch
    has as many steps as the loader has batches. *)
Theorem step_numbers (a : args) (epoch : nat) :
  let n := loader_len (train_loader a) in
  length (epoch_steps a epoch) = n /\
  (forall i sb, epoch_steps a epoch !! i = Some sb ->
     i < n /\
     sb = (epoch * n + i, loader_batch (train_loader a) epoch i) /\
     sb.1 `mod` n = i /\ sb.1 `div` n = epoch) /\
  run_epoch a epoch =
    (modify (fun s => with_model (model_train (model s)) s);;
     for_each (epoch_steps a epoch) (fun sb => train_step a epoch sb.1 sb.2);;
     epoch_end a epoch).
Proof.
  cbn zeta. unfold epoch_steps, loader_pass. split; [|split; [|reflexivity]].
  - rewrite length_imap, length_map, length_seq. reflexivity.
  - intros i sb H. rewrite list_lookup_imap, list_lookup_fmap in H.
    destruct (seq 0 (loader_len (train_loader a)) !! i) as [k|] eqn:Hk; [|discriminate].
    apply lookup_seq in Hk. destruct Hk as [-> Hi]. cbn in H. injection H as <-.
    split; [exact Hi|]. split; [reflexivity|]. cbn [fst]. split.
    + rewrite Nat.add_comm, Nat.Div0.mod_add. apply Nat.mod_small, Hi.
    + rewrite Nat.add_comm, Nat.div_add by lia. rewrite Nat.div_small by exact Hi. lia.
Qed.

End WholeRuns.

Section NoEpochCompletes.
Context {E : Externals}.

(** ** The exception that ends the first step *)

Lemma hooks_raise_index (calls : list (nat * tensor4)) (st st' : session * world) (e : exn) :
  for_each calls (fun c => layer_hook_wrapper c.1 (PyTuple [PyTensor c.2])) st = (Raise e, st') ->
  e = IndexError.
Proof.
  revert st. induction calls as [|c calls IH]; intros st H; [discriminate H|].
  cbn [for_each] in H. unfold mbind, M_bind at 1 in H.
  unfold layer_hook_wrapper at 1 in H. unfold mbind, M_bind at 1, get at 1 in H.
  cbn [fst snd] in H.
  destruct (decide (c.1 < length (layer_activations st.1))).
  - unfold modify at 1 in H. cbn [fst snd] in H. exact (IH _ H).
  - injection H as <- _. reflexivity.
Qed.

Lemma call_model_raise_index (x : tensor4) (st st' : session * world) (e : exn) :
  call_model x st = (Raise e, st') -> e = IndexError.
Proof.
  unfold call_model. unfold mbind at 1, M_bind at 1, get at 1. cbn [fst snd].
  unfold mbind at 1, M_bind at 1, emit at 1. cbn [fst snd].
  unfold mbind at 1, M_bind at 1.
  destruct (for_each _ _ _) as [[u|e'] st2] eqn:Hh.
  - unfold mbind, M_bind, modify, mret, M_ret. cbn [fst snd]. discriminate.
  - intros H. injection H as <- _. exact (hooks_raise_index _ _ _ _ Hh).
Qed.

Lemma get_bn_loss_untapped (st : session * world) :
  Forall no_mean (layer_activations st.1) ->
  get_bn_loss st = (Raise AttributeError, st) \/ get_bn_loss st = (Ok (PyList []), st).
Proof.
  intros Hall.
  destruct (get_bn_layers (model st.1)) as [|bn bns] eqn:Hbn;
    [|destruct (layer_activations st.1) as [|o buf] eqn:Hbuf].
  - right. unfold get_bn_loss, mbind, M_bind, get, lift. cbn [fst snd].
    rewrite Hbn. destruct st. reflexivity.
  - right. unfold get_bn_loss, mbind, M_bind, get, lift. cbn [fst snd].
    rewrite Hbn, Hbuf. destruct st. reflexivity.
  - left. apply get_bn_loss_no_mean; [rewrite Hbuf; exact Hall|congruence..].
Qed.

Lemma train_step_exception (a : args) (epoch step : nat) (b : Batch)
    (st st' : session * world) (e : exn) :
  Forall no_mean (layer_activations st.1) ->
  train_step a epoch step b st = (Raise e, st') ->
  e = IndexError \/ e = AttributeError \/ (unsupervised a = false /\ e = TypeError).
Proof.
  intros Hall. unfold train_step.
  unfold mbind at 1, M_bind at 1, emit at 1. cbn [fst snd].
  unfold mbind at 1, M_bind at 1, emit at 1. cbn [fst snd].
  set (w1 := emit_w _ (emit_w _ st.2)).
  unfold mbind at 1, M_bind at 1.
  assert (Hx : exists x s1, layer_activations s1 = layer_activations st.1 /\
    (if distortion_test a
     then s ← get;
          d ← match distortion s with
              | None =>
                  modify (with_distortion (Some (DistortionModelConv (shape b.1) (1 # 10))));;
                  mret (DistortionModelConv (shape b.1) (1 # 10))
              | Some d => mret d
              end;
          mret (distortion_call d b.1)
     else mret b.1) (st.1, w1) = (Ok x, (s1, w1))).
  { destruct (distortion_test a).
    - unfold mbind, M_bind, get, modify, mret, M_ret. cbn [fst snd].
      destruct (distortion st.1); cbn [fst snd];
        eexists _, _; (split; [|reflexivity]); reflexivity.
    - eexists _, _. split; [|reflexivity]. reflexivity. }
  destruct Hx as (x & s1 & Hbuf & ->).
  unfold mbind at 1, M_bind at 1.
  assert (Hall1 : Forall no_mean (layer_activations (s1, w1).1))
    by (cbn [fst]; rewrite Hbuf; exact Hall).
  pose proof (call_model_no_mean x (s1, w1) Hall1) as Hall2.
  destruct (call_model x (s1, w1)) as [[logits|e'] st2] eqn:Hcall; cbn [fst snd] in Hall2.
  - unfold mbind at 1, M_bind at 1.
    destruct (get_bn_loss_untapped st2 Hall2) as [-> | ->].
    + intros H. injection H as <- _. right. left. reflexivity.
    + unfold mbind at 1, M_bind at 1.
      destruct (unsupervised a).
      * unfold mbind at 1, M_bind at 1, lift at 1. cbn [py_item fst snd].
        intros H. injection H as <- _. right. left. reflexivity.
      * unfold mbind at 1, M_bind at 1, lift at 1. cbn [py_add_scalar fst snd].
        intros H. injection H as <- _. right. right. split; reflexivity.
  - intros H. injection H as <- _. left. exact (call_model_raise_index _ _ _ _ Hcall).
Qed.

Lemma run_epoch_exception (a : args) (epoch : nat) (st st' : session * world) (e : exn) :
  0 < loader_len (train_loader a) ->
  Forall no_mean (layer_activations st.1) ->
  run_epoch a epoch st = (Raise e, st') ->
  e = IndexError \/ e = AttributeError \/ (unsupervised a = false /\ e = TypeError).
Proof.
  intros Hn Hall. unfold run_epoch, loader_pass.
  destruct (loader_len (train_loader a)) as [|n]; [lia|].
  unfold mbind at 1, M_bind at 1, modify at 1. cbn [fst snd].
  unfold mbind at 1, M_bind at 1.
  cbn [seq map imap for_each]. unfold mbind at 1, M_bind at 1.
  set (st0 := (with_model (model_train (model st.1)) st.1, st.2)).
  destruct (train_step_raises a epoch (epoch * S n + 0, loader_batch (train_loader a) epoch 0).1
              (epoch * S n + 0, loader_batch (train_loader a) epoch 0).2 st0)
    as (e1 & st1 & Heq & _).
  rewrite Heq. intros H. injection H as <- _.
  exact (train_step_exception _ _ _ _ st0 _ _ Hall Heq).
Qed.

(** With at least one batch, a loop of at least one epoch ends at the
    first step of its first epoch. *)
Lemma epochs_first_step (a : args) (epochs : list nat) (st : session * world) :
  0 < loader_len (train_loader a) -> epochs <> [] ->
  Forall no_mean (layer_activations st.1) ->
  exists e st', for_each epochs (run_epoch a) st = (Raise e, st') /\ agree st st' /\
    out st'.2 = (out st.2 ++ [ToDevice "x" (device a); ToDevice "y" (device a); Forward])%list /\
    (e = IndexError \/ e = AttributeError \/ (unsupervised a = false /\ e = TypeError)).
Proof.
  intros Hn Hne Hall. destruct epochs as [|ep epochs]; [congruence|].
  cbn [for_each]. unfold mbind, M_bind.
  destruct (run_epoch_raise a ep st Hn) as (e & st' & Heq & Hag & Hout).
  rewrite Heq. exists e, st'. split; [reflexivity|]. split; [exact Hag|].
  split; [exact Hout|]. exact (run_epoch_exception _ _ _ _ _ Hn Hall Heq).
Qed.

Lemma epochs_agree (a : args) (epochs : list nat) (st : session * world) :
  0 < loader_len (train_loader a) ->
  agree st (for_each epochs (run_epoch a) st).2.
Proof.
  intros Hn. destruct epochs as [|ep epochs]; [apply agree_refl|].
  destruct (epochs_raise a (ep :: epochs) st Hn) as (e & st' & -> & Hag & _);
    [discriminate|exact Hag].
Qed.

Lemma setup_buffer (a : args) (w w1 : world) (s : session) :
  setup a w = (Ok s, w1) -> Forall no_mean (layer_activations s).
Proof.
  unfold setup, fresh_start.
  destruct (disk w !! ckpt a); [destruct (negb (reset a))|];
    try destruct (select_network a); intros H; try discriminate H;
    injection H as <- _; apply Forall_replicate; reflexivity.
Qed.

(** The part of a run after a start-up that succeeded, when the training
    branch is entered for at least one epoch on a loader with at least
    one batch. *)
Lemma train_and_plot_first_step (a : args) (st : session * world) :
  0 < loader_len (train_loader a) ->
  disk st.2 !! ckpt a = None \/ resume_training a = true ->
  (0 < num_epochs a)%Z ->
  Forall no_mean (layer_activations st.1) ->
  exists e s',
    train_and_plot a st =
      (Raise e, (s', {| disk := disk st.2;
                        out := out st.2 ++ [Print MsgTraining; ToDevice "x" (device a);
                                            ToDevice "y" (device a); Forward] |})) /\
    logs s' = logs st.1 /\ best_acc s' = best_acc st.1 /\ init_epoch s' = init_epoch st.1 /\
    (e = IndexError \/ e = AttributeError \/ (unsupervised a = false /\ e = TypeError)).
Proof.
  intros Hn Hgate Hpos Hall. rewrite train_and_plot_eq.
  assert (Hc : negb (bool_decide (is_Some (disk st.2 !! ckpt a))) || resume_training a = true).
  { destruct Hgate as [-> | ->]; [reflexivity|apply orb_true_r]. }
  rewrite Hc, train_loop_eq. cbn [fst].
  match goal with |- context [for_each ?l ?f ?st0] =>
    destruct (epochs_first_step a l st0 Hn) as (e & [s' w'] & Heq & Hag & Hout & Hcls);
      [|exact Hall|]
  end.
  { destruct (Z.to_nat (num_epochs a)) eqn:Hz; [lia|discriminate]. }
  rewrite Heq. exists e, s'.
  destruct Hag as (_ & Hie & Hlogs & Hbest & _ & Hdisk). cbn [fst snd] in *.
  split; [|auto].
  destruct w' as [d' o']. cbn [disk out emit_w] in *. subst d' o'.
  rewrite <- app_assoc. reflexivity.
Qed.

Lemma main_after_setup (a : args) (w w1 : world) (s : session) :
  setup (resolve_ckpt a) (emit_w (Print (MsgArgs (resolve_ckpt a))) w) = (Ok s, w1) ->
  main a w =
    match train_and_plot (resolve_ckpt a) (s, w1) with
    | (Ok _, (s', w'')) => (Ok s', w'')
    | (Raise e, (_, w'')) => (Raise e, w'')
    end.
Proof. intros H. unfold main, script_body. rewrite H. reflexivity. Qed.

(** ** Nothing of lines 152-164 is reached *)










(** C6.  In an unsupervised run whose start-up succeeds and whose loop
    has at least one epoch, the first step raises before line 142 appends
    anything ([AttributeError] at [input.mean] or at [loss_bn.item()];
    [IndexError] when a hook addresses a slot outside the buffer): the run
    ends there, no epoch completes, and the metrics log is the one that
    start-up bound, without any [acc] or [loss_bn] entry added. *)
Theorem unsupervised_run_logs_nothing (a : args) (w w1 : world) (s : session) :
  let a' := resolve_ckpt a in
  unsupervised a = true ->
  0 < loader_len (train_loader a') ->
  setup a' (emit_w (Print (MsgArgs a')) w) = (Ok s, w1) ->
  disk w !! ckpt a' = None \/ resume_training a = true ->
  (0 < num_epochs a)%Z ->
  exists e s',
    train_and_plot a' (s, w1) =
      (Raise e, (s', {| disk := disk w1;
                        out := out w1 ++ [Print MsgTraining; ToDevice "x" (device a');
                                          ToDevice "y" (device a'); Forward] |})) /\
    (e = AttributeError \/ e = IndexError) /\
    (main a w).1 = Raise e /\
    logs s' = logs s.
Proof.
  cbn zeta. set (a' := resolve_ckpt a).
  assert (Hf : unsupervised a' = unsupervised a /\ resume_training a' = resume_training a /\
               num_epochs a' = num_epochs a).
  { unfold a', resolve_ckpt. destruct (String.eqb (ckpt a) "auto"); repeat split. }
  destruct Hf as (Hu & Hres & Hnum).
  intros Hun Hn Hsetup Hgate Hpos.
  pose proof (setup_disk a' (emit_w (Print (MsgArgs a')) w)) as Hsd.
  rewrite Hsetup in Hsd. cbn [snd emit_w disk] in Hsd.
  destruct (train_and_plot_first_step a' (s, w1)) as (e & s' & Heq & Hlogs & _ & _ & Hcls).
  - exact Hn.
  - cbn [snd]. rewrite Hsd, Hres. exact Hgate.
  - rewrite Hnum. exact Hpos.
  - exact (setup_buffer _ _ _ _ Hsetup).
  - cbn [fst snd] in *. exists e, s'. split; [exact Heq|]. split; [|split; [|exact Hlogs]].
    + destruct Hcls as [-> | [-> | [Hsup _]]]; [right|left|]; try reflexivity.
      rewrite Hu, Hun in Hsup. discriminate Hsup.
    + unfold a' in *. rewrite (main_after_setup a w w1 s Hsetup), Heq. reflexivity.
Qed.

(** C7.  No sequence of epochs changes any series of the metrics log
    when the training loader has a batch.  A run resumed from a
    checkpoint with [--resume_training] and a positive [--num_epochs] ends
    in the exception of the first step of epoch [init_epoch]: after the
    dump, the restore, the training banner, the two placements and one
    forward pass; every series then has the length that the checkpoint
    stored, not [(e - init_epoch + 1) * batches_per_epoch]. *)
Theorem resumed_run_keeps_restored_log (a : args) (w : world) (c : checkpoint) :
  let a' := resolve_ckpt a in
  0 < loader_len (train_loader a') ->
  disk w !! ckpt a' = Some c ->
  reset a = false ->
  resume_training a = true ->
  (0 < num_epochs a)%Z ->
  (forall epochs st m,
     series (logs (for_each epochs (run_epoch a') st).2.1) m = series (logs st.1) m) /\
  exists e s',
    train_and_plot a'
      (start_session a' (ck_model c) (ck_optimizer c) (ck_epoch c) (ck_logs c) (ck_acc c),
       emit_w (Print (MsgLoading (ckpt a') (ck_epoch c) (ck_acc c)))
         (emit_w (Load (ckpt a') (device a')) (emit_w (Print (MsgArgs a')) w)))
    = (Raise e,
       (s', {| disk := disk w;
               out := out w ++ [Print (MsgArgs a'); Load (ckpt a') (device a');
                                Print (MsgLoading (ckpt a') (ck_epoch c) (ck_acc c));
                                Print MsgTraining; ToDevice "x" (device a');
                                ToDevice "y" (device a'); Forward] |})) /\
    main a w =
      (Raise e,
       {| disk := disk w;
          out := out w ++ [Print (MsgArgs a'); Load (ckpt a') (device a');
                           Print (MsgLoading (ckpt a') (ck_epoch c) (ck_acc c));
                           Print MsgTraining; ToDevice "x" (device a');
                           ToDevice "y" (device a'); Forward] |}) /\
    init_epoch s' = ck_epoch c /\
    forall m, length (series (logs s') m) = length (series (ck_logs c) m).
Proof.
  cbn zeta. unfold main, script_body. set (a' := resolve_ckpt a).
  assert (Hf : reset a' = reset a /\ resume_training a' = resume_training a /\
               num_epochs a' = num_epochs a).
  { unfold a', resolve_ckpt. destruct (String.eqb (ckpt a) "auto"); repeat split. }
  destruct Hf as (Hrs & Hres & Hnum). clearbody a'.
  intros Hn Hc Hreset Hresume Hpos. split.
  - intros epochs st m.
    pose proof (epochs_agree a' epochs st Hn) as (_ & _ & -> & _). reflexivity.
  - assert (Hsetup : setup a' (emit_w (Print (MsgArgs a')) w) =
      (Ok (start_session a' (ck_model c) (ck_optimizer c) (ck_epoch c) (ck_logs c) (ck_acc c)),
       emit_w (Print (MsgLoading (ckpt a') (ck_epoch c) (ck_acc c)))
         (emit_w (Load (ckpt a') (device a')) (emit_w (Print (MsgArgs a')) w)))).
    { unfold setup. cbn [emit_w disk]. rewrite Hc, Hrs, Hreset. reflexivity. }
    rewrite Hsetup.
    match goal with |- context [train_and_plot a' ?st0] =>
      destruct (train_and_plot_first_step a' st0 Hn) as (e & s' & Heq & Hlogs & _ & Hie & _)
    end.
    { right. rewrite Hres. exact Hresume. }
    { rewrite Hnum. exact Hpos. }
    { exact (setup_buffer _ _ _ _ Hsetup). }
    rewrite Heq. cbn [fst snd emit_w disk out] in *.
    rewrite <- !app_assoc. cbn [app].
    exists e, s'. split; [reflexivity|]. split; [reflexivity|]. split; [exact Hie|].
    intros m. rewrite Hlogs. reflexivity.
Qed.

End NoEpochCompletes.

(** ** The accuracy of a step (line 131) *)

Lemma Qsum_bits (l : list Q) :
  Forall (fun v => v = 0%Q \/ v = 1%Q) l ->
  (0 <= Qsum l /\ Qsum l <= inject_Z (Z.of_nat (length l)))%Q.
Proof.
  induction l as [|v l IH]; intros Hall.
  - cbn. split; apply Qle_refl.
  - apply Forall_cons in Hall. destruct Hall as [Hv Hall]. specialize (IH Hall).
    cbn [Qsum foldr length]. fold (Qsum l).
    rewrite Nat2Z.inj_succ. unfold Z.succ. rewrite inject_Z_plus.
    change (inject_Z 1) with 1%Q. destruct IH as [IH0 IH1].
    destruct Hv as [-> | ->]; split; lra.
Qed.

Lemma hits_bits (logits : list (list Q)) (y : list nat) :
  Forall (fun v => v = 0%Q \/ v = 1%Q)
    (zip_with (fun row lbl => if Nat.eqb (argmax row) lbl then 1%Q else 0%Q) logits y).
Proof.
  revert y. induction logits as [|row logits IH]; intros [|lbl y]; cbn [zip_with];
    try constructor; [|apply IH].
  destruct (Nat.eqb (argmax row) lbl); [right|left]; reflexivity.
Qed.

(** X19.  On a batch with at least one label the accuracy of a step is
    a fraction between 0 and 1. *)
Theorem step_accuracy_bounds (logits : list (list Q)) (y : list nat) :
  y <> [] -> (0 <= step_accuracy logits y /\ step_accuracy logits y <= 1)%Q.
Proof.
  intros Hy. unfold step_accuracy.
  pose proof (Qsum_bits _ (hits_bits logits y)) as [H0 H1].
  assert (Hlen : (inject_Z (Z.of_nat (length (zip_with
              (fun row lbl => if Nat.eqb (argmax row) lbl then 1%Q else 0%Q) logits y)))
            <= inject_Z (Z.of_nat (length y)))%Q).
  { apply inject_nat_le. rewrite length_zip_with. lia. }
  assert (Hpos : (0 < inject_Z (Z.of_nat (length y)))%Q).
  { destruct y as [|lbl y]; [congruence|]. apply inject_nat_pos. }
  split.
  - apply Qle_shift_div_l; [exact Hpos|]. lra.
  - apply Qle_shift_div_r; [exact Hpos|]. lra.
Qed.

(** * Concrete instances of the further properties *)

Lemma auto_ckpt_path_witness :
  resolve_ckpt default_args = with_ckpt "models/model_transfer_CIFAR10.ckpt" default_args.
Proof.
  apply (auto_ckpt_path default_args "models/model"); reflexivity.
Defined.

Lemma ckpt_path_kept_witness :
  resolve_ckpt args_other_extension = with_ckpt "models/model.pt" args_other_extension /\
  resolve_ckpt args_explicit_ckpt = args_explicit_ckpt.
Proof.
  destruct (ckpt_path_kept args_other_extension) as [_ Hauto].
  destruct (ckpt_path_kept args_explicit_ckpt) as [Hgiven _].
  split; [apply Hauto; reflexivity|apply Hgiven; discriminate].
Defined.

Lemma penalties_nonnegative_witness :
  exists l, length l = 1 /\ Forall (fun o => exists q, o = PyScalar q /\ (0 <= q)%Q) l.
Proof.
  destruct (@penalties_nonnegative toy (tensor_session, empty_world)
              (tensor_session, empty_world) (PyList [PyScalar 1%Q]))
    as (_ & l & _ & Hlen & Hall).
  - vm_compute. reflexivity.
  - exists l. split; [exact Hlen|exact Hall].
Defined.

Lemma penalty_zero_iff_witness :
  exists q, layer_penalty {| running_mean := [0%Q] |} (PyTensor image) = Ok (PyScalar q) /\
            ((q == 0)%Q <-> Forall2 Qeq [0%Q] (mean023 image)).
Proof.
  apply (penalty_zero_iff_means_equal {| running_mean := [0%Q] |} image). reflexivity.
Defined.

Lemma forward_fills_buffer_witness :
  (@call_model toy image (toy_session (toy_net 1), empty_world)).1 = Ok [[1%Q; 0%Q]] /\
  captured [(0, image)] [PyNone] !! 0 = Some (PyTuple [PyTensor image]).
Proof.
  destruct (@forward_fills_buffer toy image (toy_session (toy_net 1)) empty_world)
    as (Hcall & Hrecent & _).
  - repeat constructor.
  - split; [rewrite Hcall; reflexivity|].
    apply (Hrecent [] [] 0 image); [reflexivity|]. apply not_elem_of_nil.
Defined.

Lemma batches_prevent_saving_witness :
  disk (@main toy args_supervised (world_with earlier_checkpoint)).2
    = disk (world_with earlier_checkpoint) /\
  exists e, (@main toy args_supervised (world_with earlier_checkpoint)).1 = Raise e.
Proof.
  destruct (@batches_prevent_saving toy args_supervised (world_with earlier_checkpoint))
    as [Hdisk Hraise].
  - vm_compute. lia.
  - split; [exact Hdisk|]. apply Hraise; reflexivity.
Defined.

Lemma returning_runs_witness :
  is_Some (disk (world_with earlier_checkpoint) !! ckpt (resolve_ckpt default_args)) /\
  reset default_args = false.
Proof.
  destruct (@returning_runs toy default_args (world_with earlier_checkpoint)
              (@start_session toy (resolve_ckpt default_args) (toy_net 1) tt 1
                 (ck_logs earlier_checkpoint) (1 # 2)))
    as (Hsome & Hreset & _).
  - left. reflexivity.
  - vm_compute. reflexivity.
  - split; [exact Hsome|exact Hreset].
Defined.

Lemma rerun_restores_checkpoint_witness :
  (@main toy default_args (world_with earlier_checkpoint)).1 =
    Ok (@start_session toy (resolve_ckpt default_args) (toy_net 1) tt 1
          (ck_logs earlier_checkpoint) (1 # 2)) /\
  disk (@main toy default_args (world_with earlier_checkpoint)).2
    = disk (world_with earlier_checkpoint).
Proof.
  destruct (@rerun_restores_checkpoint toy default_args (world_with earlier_checkpoint)
              earlier_checkpoint) as (Hres & Hdisk & _).
  - vm_compute. reflexivity.
  - reflexivity.
  - left. reflexivity.
  - split; [exact Hres|exact Hdisk].
Defined.

Lemma step_accuracy_bounds_witness :
  (0 <= step_accuracy [[1; 0]] [0%nat] /\ step_accuracy [[1; 0]] [0%nat] <= 1)%Q.
Proof. apply step_accuracy_bounds. discriminate. Defined.

Lemma plot_loc_stem_witness : plot_loc args_dot_path = ".png".
Proof.
  destruct (plot_loc_stem args_dot_path) as [_ Hdot].
  apply (Hdot "/run.ckpt"). reflexivity.
Defined.

Lemma buffer_slots_fixed_witness :
  (@call_model toy image (short_session, empty_world)).1 = Raise IndexError.
Proof.
  apply (@buffer_slots_fixed toy image (short_session, empty_world)).
  apply Exists_cons_hd. cbn. lia.
Defined.


(** * Runs that end at their first step *)


(** The run itself: it ends at [input.mean] of the first step; the
    checkpoint still holds epoch count 1 and accuracy 1/2. *)
Example resumed_run_example :
  @main toy args_supervised (world_with earlier_checkpoint) =
  (Raise AttributeError,
   @Build_world toy (disk (world_with earlier_checkpoint))
     [Print (MsgArgs (resolve_ckpt args_supervised));
      Load toy_ckpt_path "cuda";
      Print (MsgLoading toy_ckpt_path 1 (1 # 2));
      Print MsgTraining;
      ToDevice "x" "cuda"; ToDevice "y" "cuda"; Forward]) /\
  disk (world_with earlier_checkpoint) !! toy_ckpt_path = Some earlier_checkpoint.
Proof. split; vm_compute; reflexivity. Qed.

(** [--resume_training --unsupervised] on [earlier_checkpoint]. *)
Lemma unsupervised_run_witness :
  let a' := resolve_ckpt args_unsupervised in
  let s := @start_session toy a' (toy_net 1) tt 1 (ck_logs earlier_checkpoint) (1 # 2) in
  let w1 := emit_w (Print (MsgLoading toy_ckpt_path 1 (1 # 2)))
              (emit_w (Load toy_ckpt_path "cuda")
                 (emit_w (Print (MsgArgs a')) (world_with earlier_checkpoint))) in
  exists e s',
    (@train_and_plot toy a' (s, w1)).1 = Raise e /\
    (@train_and_plot toy a' (s, w1)).2.1 = s' /\
    (e = AttributeError \/ e = IndexError) /\
    (@main toy args_unsupervised (world_with earlier_checkpoint)).1 = Raise e /\
    logs s' = ck_logs earlier_checkpoint.
Proof.
  cbn zeta.
  destruct (@unsupervised_run_logs_nothing toy args_unsupervised (world_with earlier_checkpoint)
              (emit_w (Print (MsgLoading toy_ckpt_path 1 (1 # 2)))
                 (emit_w (Load toy_ckpt_path "cuda")
                    (emit_w (Print (MsgArgs (resolve_ckpt args_unsupervised)))
                       (world_with earlier_checkpoint))))
              (@start_session toy (resolve_ckpt args_unsupervised) (toy_net 1) tt 1
                 (ck_logs earlier_checkpoint) (1 # 2)))
    as (e & s' & Heq & Hcls & Hmain & Hlogs).
  - reflexivity.
  - vm_compute. lia.
  - vm_compute. reflexivity.
  - right. reflexivity.
  - reflexivity.
  - exists e, s'. rewrite Heq. repeat split; assumption.
Defined.

(** The run ends with [AttributeError]; the log at that point has the
    keys [loss_crit] and [val_acc] of the checkpoint, each with its one
    restored entry, and neither [acc] nor [loss_bn]. *)
Example unsupervised_run_example :
  let a' := resolve_ckpt args_unsupervised in
  let st' := (@train_and_plot toy a'
                (@start_session toy a' (toy_net 1) tt 1 (ck_logs earlier_checkpoint) (1 # 2),
                 world_with earlier_checkpoint)).2 in
  (@main toy args_unsupervised (world_with earlier_checkpoint)).1 = Raise AttributeError /\
  logs st'.1 !! "loss_crit" = Some [(7 # 10)%Q] /\
  logs st'.1 !! "val_acc" = Some [(1 # 2)%Q] /\
  logs st'.1 !! "acc" = None /\
  logs st'.1 !! "loss_bn" = None.
Proof. cbn zeta. repeat split; vm_compute; reflexivity. Qed.

(** [--resume_training --save_best --batch_size 1] on [earlier_checkpoint]:
    three batches per epoch, epoch count 1 restored. *)
Lemma resumed_run_keeps_restored_log_witness :
  exists e,
    @main toy args_three_batches (world_with earlier_checkpoint) =
      (Raise e,
       @Build_world toy (disk (world_with earlier_checkpoint))
         [Print (MsgArgs args_three_batches);
          Load toy_ckpt_path "cuda";
          Print (MsgLoading toy_ckpt_path 1 (1 # 2));
          Print MsgTraining;
          ToDevice "x" "cuda"; ToDevice "y" "cuda"; Forward]).
Proof.
  destruct (@resumed_run_keeps_restored_log toy args_three_batches
              (world_with earlier_checkpoint) earlier_checkpoint)
    as (_ & e & s' & _ & Hmain & _).
  - vm_compute. lia.
  - vm_compute. reflexivity.
  - reflexivity.
  - reflexivity.
  - reflexivity.
  - exists e. exact Hmain.
Defined.

(** The same run: at the exception every series has the length that the
    checkpoint stored, 1 for [val_acc] and [loss_crit] and 0 for [acc],
    where three batches per epoch would have given 3. *)
Example resumed_log_lengths_example :
  let st' := (@train_and_plot toy args_three_batches
                (@start_session toy args_three_batches (toy_net 1) tt 1
                   (ck_logs earlier_checkpoint) (1 # 2),
                 world_with earlier_checkpoint)).2 in
  loader_len (@train_loader toy args_three_batches) = 3 /\
  (@main toy args_three_batches (world_with earlier_checkpoint)).1 = Raise AttributeError /\
  length (series (logs st'.1) "val_acc") = 1 /\
  length (series (logs st'.1) "loss_crit") = 1 /\
  length (series (logs st'.1) "acc") = 0.
Proof. cbn zeta. repeat split; vm_compute; reflexivity. Qed.

(** The end of an epoch on its own, for the module of the checkpoint: the
    plot and the announcement are made and [best_acc] is raised to 1, then
    the save raises and the file is the one of the earlier epoch. *)
Example save_raises_example :
  let r := @epoch_end toy args_three_batches 1
             (toy_session (toy_net 1), world_with earlier_checkpoint) in
  r.1 = Raise PicklingError /\
  best_acc r.2.1 = 1%Q /\
  disk r.2.2 !! toy_ckpt_path = Some earlier_checkpoint /\
  filter (fun e => is_save_event e = true) (out r.2.2) =
    [Plot (logs r.2.1) (Some 3) 50 (Some "models/model_transfer_CIFAR10.png");
     Print (MsgSaving toy_ckpt_path)].
Proof. cbn zeta. repeat split; vm_compute; reflexivity. Qed.
